(** * Sales analysis: a shallow embedding of [sales_analysis.py] and [app.py]

    Both files define the same four layers: a singleton [DataLoader] that
    reads a CSV file into a pandas DataFrame and casts the [branch_id]
    column to [str], a [SalesRepository] with five dataframe queries, a
    family of strategy classes and an [AnalysisFactory].

    Modelling choices.
    - A DataFrame is a record of column names and rows; a row carries every
      column the queries use.  A missing CSV cell (pandas NaN / NaT) is
      [None]; numeric cells are exact rationals [Q].
    - The [branch_id] cell is a Python object ([pyval]) because its type
      depends on how [read_csv] inferred the column; [astype(str)] turns
      every cell into a [PyStr].
    - The file system and [pd.read_csv] are an explicit [world]: whether a
      path exists and what the reader returns for it.
    - The [DataLoader] instance is the state of a small state/error monad
      [M]; the repository methods run in [M] because [get_data] may reload
      and [get_weekly_sales] assigns a column on the shared frame.
    - [Series.sort_values(ascending=False)] uses numpy's default
      [kind='quicksort'], which is not stable; it is a parameter [sv]
      of [get_product_preference], constrained where needed by its
      documented contract (a permutation, sorted by value, descending). *)

From Stdlib Require Import String List ZArith QArith Bool Lia Permutation Sorting.Sorted.
From Stdlib Require Import Qround Reals Qreals.
Import ListNotations.
Open Scope string_scope.
Open Scope Z_scope.

(** ** Python values, dates and rows *)

(** The cell of an object column as [read_csv] produced it. *)
Inductive pyval :=
| PyInt (z : Z)
| PyFloat (repr : string)   (** a float, carried with its Python [repr] ("1.0", "nan") *)
| PyStr (s : string)
| PyBool (b : bool).

(** Decimal digits of a natural number, as Python's [str] prints it. *)
Fixpoint digits_aux (fuel : nat) (n : N) (acc : string) : string :=
  match fuel with
  | O => acc
  | Datatypes.S fuel' =>
      let d := N.modulo n 10 in
      let c := Ascii.ascii_of_N (48 + d) in
      let acc' := String c acc in
      if N.ltb n 10 then acc' else digits_aux fuel' (N.div n 10) acc'
  end.

Definition str_of_N (n : N) : string := digits_aux (N.to_nat (N.log2 n + 2)) n "".

Definition str_of_Z (z : Z) : string :=
  match z with
  | Z.neg p => "-" ++ str_of_N (N.pos p)
  | _ => str_of_N (Z.to_N z)
  end.

(** Python's [str(v)]. *)
Definition py_str (v : pyval) : string :=
  match v with
  | PyInt z => str_of_Z z
  | PyFloat r => r
  | PyStr s => s
  | PyBool true => "True"
  | PyBool false => "False"
  end.

(** Python's [v == s] for a cell [v] and a [str] [s]: only a [str] equals a
    [str]; [1 == '1'] is [False]. *)
Definition py_eq_str (v : pyval) (s : string) : bool :=
  match v with
  | PyStr s' => String.eqb s' s
  | _ => false
  end.

(** A [date] cell: missing (NaT after [to_datetime]), a valid calendar date,
    or a string [to_datetime] cannot parse. *)
Inductive date_cell :=
| DateNaN
| DateOk (y m d : Z)
| DateBad (s : string).

Record row := mk_row {
  branch_id : pyval;
  date : date_cell;
  product_id : option Z;
  sales_amount : option Q;
  price : option Q;
  week : option Z  (** the derived [week] column; [None] is <NA> *)
}.

Record frame := mk_frame {
  columns : list string;
  rows : list row
}.

Definition has_column (f : frame) (c : string) : bool :=
  existsb (String.eqb c) (columns f).

(** ** Exceptions *)

Inductive exn :=
| ValueError (msg : string)
| KeyError (msg : string)
| FileNotFoundError (msg : string)
| IOError (msg : string)
| TypeError (msg : string)
| EmptyDataError (msg : string)   (** [pd.errors.EmptyDataError] *)
| ParserError (msg : string).     (** [pd.errors.ParserError] *)

(** [str(e)]. *)
Definition exn_str (e : exn) : string :=
  match e with
  | ValueError m | KeyError m | FileNotFoundError m | IOError m
  | TypeError m | EmptyDataError m | ParserError m => m
  end.

Inductive exn_class :=
  ValueErrorC | KeyErrorC | FileNotFoundErrorC | IOErrorC | TypeErrorC
| EmptyDataErrorC | ParserErrorC.

Definition exn_class_of (e : exn) : exn_class :=
  match e with
  | ValueError _ => ValueErrorC
  | KeyError _ => KeyErrorC
  | FileNotFoundError _ => FileNotFoundErrorC
  | IOError _ => IOErrorC
  | TypeError _ => TypeErrorC
  | EmptyDataError _ => EmptyDataErrorC
  | ParserError _ => ParserErrorC
  end.

(** [df[c]] on a missing column raises [KeyError(c)], printed ['c']. *)
Definition key_error (c : string) : exn := KeyError ("'" ++ c ++ "'").

Inductive result (A : Type) :=
| Ok (a : A)
| Err (e : exn).
Arguments Ok {A} a.
Arguments Err {A} e.

(** ** The file system and [pd.read_csv] *)

Record world := mk_world {
  path_exists : string -> bool;          (** [os.path.exists] *)
  read_csv : string -> result frame      (** [pd.read_csv]: a frame or the exception it raises *)
}.

(** ** The [DataLoader] instance and the state/error monad *)

Record loader := mk_loader {
  file_path : string;
  data : option frame
}.

Definition M (A : Type) := loader -> result A * loader.

Definition ret {A} (a : A) : M A := fun st => (Ok a, st).
Definition raise {A} (e : exn) : M A := fun st => (Err e, st).
Definition bind {A B} (m : M A) (k : A -> M B) : M B :=
  fun st => match m st with
            | (Ok a, st') => k a st'
            | (Err e, st') => (Err e, st')
            end.
Definition get : M loader := fun st => (Ok st, st).
Definition put (st : loader) : M unit := fun _ => (Ok tt, st).

Notation "x <- m ;; k" := (bind m (fun x => k))
  (at level 61, m at next level, right associativity).
Notation "m ;;; k" := (bind m (fun _ => k))
  (at level 61, right associativity).

(** [try: m  except Exception as e: raise ValueError(prefix + str(e))];
    state changes made before the exception stay. *)
Definition wrap_value_error {A} (prefix : string) (m : M A) : M A :=
  fun st => match m st with
            | (Err e, st') => (Err (ValueError (prefix ++ exn_str e)), st')
            | r => r
            end.

(** [try: m  except Exception as e: raise h(e)]. *)
Definition try_except {A} (m : M A) (h : exn -> exn) : M A :=
  fun st => match m st with
            | (Err e, st') => (Err (h e), st')
            | r => r
            end.

(** [self.data = v] *)
Definition set_data (v : option frame) : M unit :=
  fun st => (Ok tt, mk_loader (file_path st) v).

(** [df['branch_id'] = df['branch_id'].astype(str)] on a frame that has the column. *)
Definition astype_branch_str (f : frame) : frame :=
  mk_frame (columns f)
    (map (fun r => mk_row (PyStr (py_str (branch_id r))) (date r) (product_id r)
                          (sales_amount r) (price r) (week r)) (rows f)).

(** ** Calendar: Python's [datetime] ordinals and [isocalendar] *)

Definition is_leap (y : Z) : bool :=
  (Z.eqb (y mod 4) 0 && negb (Z.eqb (y mod 100) 0)) || Z.eqb (y mod 400) 0.

(** [_DAYS_BEFORE_MONTH = [-1, 0, 31, 59, ...]] *)
Definition DAYS_BEFORE_MONTH : list Z :=
  [-1; 0; 31; 59; 90; 120; 151; 181; 212; 243; 273; 304; 334].

Definition days_before_year (year : Z) : Z :=
  let y := year - 1 in y * 365 + y / 4 - y / 100 + y / 400.

Definition days_before_month (year month : Z) : Z :=
  nth (Z.to_nat month) DAYS_BEFORE_MONTH 0
  + (if (month >? 2) && is_leap year then 1 else 0).

Definition ymd2ord (year month day : Z) : Z :=
  days_before_year year + days_before_month year month + day.

Definition isoweek1monday (year : Z) : Z :=
  let THURSDAY := 3 in
  let firstday := ymd2ord year 1 1 in
  let firstweekday := (firstday + 6) mod 7 in
  let week1monday := firstday - firstweekday in
  if firstweekday >? THURSDAY then week1monday + 7 else week1monday.

(** [date(year, month, day).isocalendar().week] *)
Definition iso_week (year month day : Z) : Z :=
  let today := ymd2ord year month day in
  let w := (today - isoweek1monday year) / 7 in
  if w <? 0 then (today - isoweek1monday (year - 1)) / 7 + 1
  else if (w >=? 52) && (today >=? isoweek1monday (year + 1)) then 1
  else w + 1.

(** [pd.to_datetime(col).dt.isocalendar().week] for one cell. *)
Definition week_of (c : date_cell) : option Z :=
  match c with
  | DateOk y m d => Some (iso_week y m d)
  | _ => None
  end.

(** [pd.to_datetime] raises on the first cell it cannot parse. *)
Fixpoint first_bad_date (rs : list row) : option string :=
  match rs with
  | [] => None
  | r :: rs' => match date r with DateBad s => Some s | _ => first_bad_date rs' end
  end.

(** [df['week'] = ...]: adds the column (or overwrites it) on the same frame. *)
Definition assign_week (f : frame) : frame :=
  mk_frame (if has_column f "week" then columns f else columns f ++ ["week"])
    (map (fun r => mk_row (branch_id r) (date r) (product_id r)
                          (sales_amount r) (price r) (week_of (date r))) (rows f)).

(** ** [groupby] *)

(** Group keys: the distinct non-missing keys in ascending order
    ([groupby] sorts its keys and drops NaN keys, [dropna=True]). *)
Fixpoint insert_key (x : Z) (l : list Z) : list Z :=
  match l with
  | [] => [x]
  | y :: t => if x <? y then x :: l else if x =? y then l else y :: insert_key x t
  end.

Definition group_keys (key : row -> option Z) (rs : list row) : list Z :=
  fold_right (fun r ks => match key r with Some k => insert_key k ks | None => ks end) [] rs.

(** The column [col] restricted to the group [k]. *)
Definition group_vals (key : row -> option Z) (col : row -> option Q) (k : Z) (rs : list row)
  : list (option Q) :=
  map col (filter (fun r => match key r with Some k' => k' =? k | None => false end) rs).

(** [Series.sum()]: NaN skipped, the sum of nothing is 0. *)
Definition sum_skipna (l : list (option Q)) : Q :=
  fold_right (fun o acc => match o with Some q => (q + acc)%Q | None => acc end) 0%Q l.

(** [df.groupby(key)[col].sum()] *)
Definition groupby_sum (key : row -> option Z) (col : row -> option Q) (rs : list row)
  : list (Z * Q) :=
  map (fun k => (k, sum_skipna (group_vals key col k rs))) (group_keys key rs).

(** ** [Series.describe()] on a numeric column *)

Inductive stat :=
| SCount (n : nat)
| SNum (q : option Q)        (** [None] is NaN *)
| SStd (r : option R).

Fixpoint somes (l : list (option Q)) : list Q :=
  match l with
  | [] => []
  | Some q :: t => q :: somes t
  | None :: t => somes t
  end.

Fixpoint insert_Q (x : Q) (l : list Q) : list Q :=
  match l with
  | [] => [x]
  | y :: t => if Qle_bool x y then x :: l else y :: insert_Q x t
  end.

Definition sort_Q (l : list Q) : list Q := fold_right insert_Q [] l.

Definition sumQ (l : list Q) : Q := fold_right Qplus 0%Q l.

(** Linear interpolation between order statistics (pandas' default):
    position [h = (n-1) q], value [x_i + (h - i) (x_(i+1) - x_i)] with [i = floor h]. *)
Definition quantile (sorted : list Q) (q : Q) : option Q :=
  match sorted with
  | [] => None
  | x0 :: _ =>
      let n := length sorted in
      let h := (inject_Z (Z.of_nat n - 1) * q)%Q in
      let i := Qfloor h in
      let xi := nth (Z.to_nat i) sorted x0 in
      let xj := nth (Datatypes.S (Z.to_nat i)) sorted xi in
      Some (xi + (h - inject_Z i) * (xj - xi))%Q
  end.

Definition describe (col : list (option Q)) : list (string * stat) :=
  let xs := somes col in
  let n := length xs in
  let sorted := sort_Q xs in
  let mean := (sumQ xs / inject_Z (Z.of_nat n))%Q in
  let ss := sumQ (map (fun x => (x - mean) * (x - mean))%Q xs) in
  [("count", SCount n);
   ("mean", SNum (match n with O => None | _ => Some mean end));
   ("std", SStd (if Nat.leb 2 n
                 then Some (sqrt (Q2R (ss / inject_Z (Z.of_nat n - 1))))
                 else None));
   ("min", SNum (hd_error sorted));
   ("25%", SNum (quantile sorted (1 # 4)));
   ("50%", SNum (quantile sorted (1 # 2)));
   ("75%", SNum (quantile sorted (3 # 4)));
   ("max", SNum (last (map Some sorted) None))].

(** [df.groupby(key)[col].describe()] *)
Definition groupby_describe (key : row -> option Z) (col : row -> option Q) (rs : list row)
  : list (Z * list (string * stat)) :=
  map (fun k => (k, describe (group_vals key col k rs))) (group_keys key rs).

(** ** [sales_analysis.py] *)

Module SA.
Section WithWorld.
Variable w : world.

(** The [except] clauses of [DataLoader._load_data], in order. *)
Definition load_handler (p : string) (e : exn) : exn :=
  match e with
  | FileNotFoundError m => FileNotFoundError ("File not found: " ++ m)
  | EmptyDataError _ => ValueError "The file is empty."
  | ParserError _ => ValueError "Error parsing the file."
  | e => IOError ("An unexpected error occurred while reading the file " ++ p ++ ": " ++ exn_str e)
  end.

(** [DataLoader._load_data] (lines 27-43). *)
Definition load_data : M unit :=
  st <- get ;;
  let p := file_path st in
  if negb (path_exists w p)
  then raise (FileNotFoundError ("The file " ++ p ++ " does not exist."))
  else try_except
         (match read_csv w p with
          | Err e => raise e
          | Ok f =>
              set_data (Some f) ;;;
              if has_column f "branch_id"
              then set_data (Some (astype_branch_str f))
              else raise (key_error "branch_id")
          end)
         (load_handler p).

(** [DataLoader(file_path)]: [__new__] hands back the one instance, which
    [__init__] resets before loading. *)
Definition DataLoader_init (p : string) : M unit :=
  put (mk_loader p None) ;;; load_data.

(** [DataLoader.get_data] *)
Definition get_data : M frame :=
  st <- get ;;
  match data st with
  | Some f => ret f
  | None =>
      load_data ;;;
      st' <- get ;;
      match data st' with
      | Some f => ret f
      | None => raise (TypeError "'NoneType' object is not subscriptable")
      end
  end.

(** [SalesRepository.get_monthly_sales] *)
Definition get_monthly_sales (b : string) : M frame :=
  wrap_value_error "Error fetching monthly sales data: "
    (df <- get_data ;;
     if negb (has_column df "branch_id") then raise (key_error "branch_id") else
     let branch_data :=
       mk_frame (columns df) (filter (fun r => py_eq_str (branch_id r) b) (rows df)) in
     match rows branch_data with
     | [] => raise (ValueError ("No data found for branch ID: " ++ b))
     | _ => ret branch_data
     end).

(** [SalesRepository.get_product_price_analysis] *)
Definition get_product_price_analysis : M (list (Z * list (string * stat))) :=
  wrap_value_error "Error fetching product price analysis: "
    (df <- get_data ;;
     if negb (has_column df "product_id") then raise (key_error "product_id")
     else if negb (has_column df "price") then raise (KeyError "'Column not found: price'")
     else ret (groupby_describe product_id price (rows df))).

(** [SalesRepository.get_weekly_sales]: the [week] column is assigned on
    the frame the loader holds. *)
Definition get_weekly_sales : M (list (Z * Q)) :=
  wrap_value_error "Error fetching weekly sales data: "
    (df <- get_data ;;
     if negb (has_column df "date") then raise (key_error "date") else
     match first_bad_date (rows df) with
     | Some s => raise (ValueError ("Unknown datetime string format, unable to parse: " ++ s))
     | None =>
         let df' := assign_week df in
         set_data (Some df') ;;;
         if negb (has_column df' "sales_amount")
         then raise (KeyError "'Column not found: sales_amount'")
         else ret (groupby_sum week sales_amount (rows df'))
     end).

(** [SalesRepository.get_product_preference]; [sort_values] stands for
    [Series.sort_values(ascending=False)]. *)
Definition get_product_preference (sort_values : list (Z * Q) -> list (Z * Q))
  : M (list (Z * Q)) :=
  wrap_value_error "Error fetching product preference data: "
    (df <- get_data ;;
     if negb (has_column df "product_id") then raise (key_error "product_id")
     else if negb (has_column df "sales_amount")
     then raise (KeyError "'Column not found: sales_amount'")
     else ret (sort_values (groupby_sum product_id sales_amount (rows df)))).

(** [SalesRepository.get_sales_distribution] *)
Definition get_sales_distribution : M (list (string * stat)) :=
  wrap_value_error "Error fetching sales distribution data: "
    (df <- get_data ;;
     if negb (has_column df "sales_amount") then raise (key_error "sales_amount")
     else ret (describe (map sales_amount (rows df)))).

End WithWorld.

(** The strategy classes. *)
Inductive analysis :=
| MonthlySalesAnalysis (branch : string)
| PriceAnalysis
| WeeklySalesAnalysis
| ProductPreferenceAnalysis
| SalesDistributionAnalysis.

(** [**kwargs] as an association list; [kwargs['k']] takes the first binding. *)
Definition kwargs := list (string * string).

Definition kw_lookup (k : string) (kw : kwargs) : option string :=
  match find (fun p => String.eqb (fst p) k) kw with
  | Some (_, v) => Some v
  | None => None
  end.

(** [AnalysisFactory.create_analysis] (the [repo] argument is only stored). *)
Definition create_analysis (analysis_type : string) (kw : kwargs) : result analysis :=
  if String.eqb analysis_type "monthly_sales" then
    match kw_lookup "branch_id" kw with
    | Some b => Ok (MonthlySalesAnalysis b)
    | None => Err (key_error "branch_id")
    end
  else if String.eqb analysis_type "price" then Ok PriceAnalysis
  else if String.eqb analysis_type "weekly_sales" then Ok WeeklySalesAnalysis
  else if String.eqb analysis_type "product_preference" then Ok ProductPreferenceAnalysis
  else if String.eqb analysis_type "sales_distribution" then Ok SalesDistributionAnalysis
  else Err (ValueError "Unknown analysis type").

End SA.

(** ** [app.py] *)

Module App.
Section WithWorld.
Variable w : world.

(** The single [except Exception] clause of [DataLoader._load_data]. *)
Definition load_handler (p : string) (e : exn) : exn :=
  IOError ("An error occurred while reading the file " ++ p ++ ": " ++ exn_str e).

(** [DataLoader._load_data] (lines 21-28). *)
Definition load_data : M unit :=
  st <- get ;;
  let p := file_path st in
  if negb (path_exists w p)
  then raise (FileNotFoundError ("The file " ++ p ++ " does not exist."))
  else try_except
         (match read_csv w p with
          | Err e => raise e
          | Ok f =>
              set_data (Some f) ;;;
              if has_column f "branch_id"
              then set_data (Some (astype_branch_str f))
              else raise (key_error "branch_id")
          end)
         (load_handler p).

(** [DataLoader(file_path)]: [__new__] hands back the one instance, which
    [__init__] resets before loading. *)
Definition DataLoader_init (p : string) : M unit :=
  put (mk_loader p None) ;;; load_data.

(** [DataLoader.get_data] *)
Definition get_data : M frame :=
  st <- get ;;
  match data st with
  | Some f => ret f
  | None =>
      load_data ;;;
      st' <- get ;;
      match data st' with
      | Some f => ret f
      | None => raise (TypeError "'NoneType' object is not subscriptable")
      end
  end.

(** [SalesRepository.get_monthly_sales], textually as in [sales_analysis.py]. *)
Definition get_monthly_sales (b : string) : M frame :=
  wrap_value_error "Error fetching monthly sales data: "
    (df <- get_data ;;
     if negb (has_column df "branch_id") then raise (key_error "branch_id") else
     let branch_data :=
       mk_frame (columns df) (filter (fun r => py_eq_str (branch_id r) b) (rows df)) in
     match rows branch_data with
     | [] => raise (ValueError ("No data found for branch ID: " ++ b))
     | _ => ret branch_data
     end).

(** [SalesRepository.get_product_price_analysis] *)
Definition get_product_price_analysis : M (list (Z * list (string * stat))) :=
  wrap_value_error "Error fetching product price analysis: "
    (df <- get_data ;;
     if negb (has_column df "product_id") then raise (key_error "product_id")
     else if negb (has_column df "price") then raise (KeyError "'Column not found: price'")
     else ret (groupby_describe product_id price (rows df))).

(** [SalesRepository.get_weekly_sales]: the [week] column is assigned on
    the frame the loader holds. *)
Definition get_weekly_sales : M (list (Z * Q)) :=
  wrap_value_error "Error fetching weekly sales data: "
    (df <- get_data ;;
     if negb (has_column df "date") then raise (key_error "date") else
     match first_bad_date (rows df) with
     | Some s => raise (ValueError ("Unknown datetime string format, unable to parse: " ++ s))
     | None =>
         let df' := assign_week df in
         set_data (Some df') ;;;
         if negb (has_column df' "sales_amount")
         then raise (KeyError "'Column not found: sales_amount'")
         else ret (groupby_sum week sales_amount (rows df'))
     end).

(** [SalesRepository.get_product_preference]; [sort_values] stands for
    [Series.sort_values(ascending=False)]. *)
Definition get_product_preference (sort_values : list (Z * Q) -> list (Z * Q))
  : M (list (Z * Q)) :=
  wrap_value_error "Error fetching product preference data: "
    (df <- get_data ;;
     if negb (has_column df "product_id") then raise (key_error "product_id")
     else if negb (has_column df "sales_amount")
     then raise (KeyError "'Column not found: sales_amount'")
     else ret (sort_values (groupby_sum product_id sales_amount (rows df)))).

(** [SalesRepository.get_sales_distribution] *)
Definition get_sales_distribution : M (list (string * stat)) :=
  wrap_value_error "Error fetching sales distribution data: "
    (df <- get_data ;;
     if negb (has_column df "sales_amount") then raise (key_error "sales_amount")
     else ret (describe (map sales_amount (rows df)))).

End WithWorld.

(** The strategy classes. *)
Inductive analysis :=
| MonthlySalesAnalysis (branch : string)
| PriceAnalysis
| WeeklySalesAnalysis
| ProductPreferenceAnalysis
| SalesDistributionAnalysis.

(** [**kwargs] as an association list; [kwargs['k']] takes the first binding. *)
Definition kwargs := list (string * string).

Definition kw_lookup (k : string) (kw : kwargs) : option string :=
  match find (fun p => String.eqb (fst p) k) kw with
  | Some (_, v) => Some v
  | None => None
  end.

(** [AnalysisFactory.create_analysis] (the [repo] argument is only stored). *)
Definition create_analysis (analysis_type : string) (kw : kwargs) : result analysis :=
  if String.eqb analysis_type "monthly_sales" then
    match kw_lookup "branch_id" kw with
    | Some b => Ok (MonthlySalesAnalysis b)
    | None => Err (key_error "branch_id")
    end
  else if String.eqb analysis_type "price" then Ok PriceAnalysis
  else if String.eqb analysis_type "weekly_sales" then Ok WeeklySalesAnalysis
  else if String.eqb analysis_type "product_preference" then Ok ProductPreferenceAnalysis
  else if String.eqb analysis_type "sales_distribution" then Ok SalesDistributionAnalysis
  else Err (ValueError "Unknown analysis type").

End App.

(** ** Strategies, the command line of [sales_analysis.py] and the route of [app.py] *)

(** What [analyze()] hands back: the pandas object of each report. *)
Inductive report :=
| DataFrameRows (f : frame)                           (** [get_monthly_sales] *)
| DataFrameStats (t : list (Z * list (string * stat))) (** [get_product_price_analysis] *)
| SeriesTotals (s : list (Z * Q))                     (** [get_weekly_sales], [get_product_preference] *)
| SeriesStats (s : list (string * stat)).             (** [get_sales_distribution] *)

Definition fmap_M {A B} (g : A -> B) (m : M A) : M B := x <- m ;; ret (g x).

(** [isinstance(e, ValueError)]: pandas' [EmptyDataError] and [ParserError]
    derive from [ValueError]. *)
Definition is_value_error (e : exn) : bool :=
  match e with
  | ValueError _ | EmptyDataError _ | ParserError _ => true
  | _ => false
  end.

(** Console effects of [main]. *)
Inductive event :=
| System (cmd : string)     (** [os.system(cmd)] *)
| Print (s : string)        (** [print(s)] *)
| PrintReport (r : report)  (** [print(result)] *)
| Prompt (s : string).      (** [input(s)] writes its prompt *)

(** How [main] ends: it returns, an exception escapes it, or [input()]
    raises [EOFError] because the input is exhausted. *)
Inductive main_end :=
| Returned
| Raised (e : exn)
| EOFError.

(** After one pass of the [while True] loop: go on with the rest of the
    input, or leave [main]. *)
Inductive next :=
| Continue (ins : list string)
| Stop (e : main_end).

Definition prepend (evs : list event) (t : list event * next * loader)
  : list event * next * loader :=
  match t with (ev, n, st) => ((evs ++ ev)%list, n, st) end.

Module SAMain.
Section WithWorld.
Variable w : world.
(** [platform.system() == "Windows"] *)
Variable windows : bool.
Variable sv : list (Z * Q) -> list (Z * Q).

(** The [analyze] methods of the five strategy classes (lines 100-134). *)
Definition analyze (a : SA.analysis) : M report :=
  match a with
  | SA.MonthlySalesAnalysis b => fmap_M DataFrameRows (SA.get_monthly_sales w b)
  | SA.PriceAnalysis => fmap_M DataFrameStats (SA.get_product_price_analysis w)
  | SA.WeeklySalesAnalysis => fmap_M SeriesTotals (SA.get_weekly_sales w)
  | SA.ProductPreferenceAnalysis => fmap_M SeriesTotals (SA.get_product_preference w sv)
  | SA.SalesDistributionAnalysis => fmap_M SeriesStats (SA.get_sales_distribution w)
  end.

(** [clear_screen] (lines 7-11). *)
Definition clear_screen : event := System (if windows then "cls" else "clear").

Definition menu_lines : list string :=
  ["Select Analysis Type:"; "1. Monthly Sales Analysis"; "2. Price Analysis";
   "3. Weekly Sales Analysis"; "4. Product Preference Analysis";
   "5. Sales Distribution Analysis"; "0. Exit"].

(** Lines 163-172: clear, print the menu, [input("Enter choice: ")]. *)
Definition menu : list event :=
  (clear_screen :: map Print menu_lines ++ [Prompt "Enter choice: "])%list.

(** Lines 196-200. *)
Definition show_result (r : result report) : list event :=
  match r with
  | Ok res => [Print "Result:"; PrintReport res]
  | Err e =>
      if is_value_error e then [Print ("Value error: " ++ exn_str e)]
      else [Print ("An unexpected error occurred: " ++ exn_str e)]
  end.

(** Lines 193-203, after the factory call of lines 177-187 (outside the
    [try], so a factory exception leaves [main]). *)
Definition run_analysis (created : result SA.analysis) (ins : list string) (st : loader)
  : list event * next * loader :=
  match created with
  | Err e => ([], Stop (Raised e), st)
  | Ok a =>
      match analyze a st with
      | (r, st') =>
          match ins with
          | [] => ((show_result r ++ [Prompt "Press Enter to continue..."])%list, Stop EOFError, st')
          | _ :: ins' =>
              ((show_result r ++ [Prompt "Press Enter to continue..."; clear_screen])%list,
               Continue ins', st')
          end
      end
  end.

(** One pass of the loop (lines 163-203). *)
Definition iteration (ins : list string) (st : loader) : list event * next * loader :=
  match ins with
  | [] => (menu, Stop EOFError, st)
  | choice :: ins1 =>
      if String.eqb choice "0" then (menu, Stop Returned, st)
      else if String.eqb choice "1" then
        match ins1 with
        | [] => ((menu ++ [Prompt "Enter branch ID: "])%list, Stop EOFError, st)
        | b :: ins2 =>
            prepend (menu ++ [Prompt "Enter branch ID: "])%list
              (run_analysis (SA.create_analysis "monthly_sales" [("branch_id", b)]) ins2 st)
        end
      else if String.eqb choice "2" then
        prepend menu (run_analysis (SA.create_analysis "price" []) ins1 st)
      else if String.eqb choice "3" then
        prepend menu (run_analysis (SA.create_analysis "weekly_sales" []) ins1 st)
      else if String.eqb choice "4" then
        prepend menu (run_analysis (SA.create_analysis "product_preference" []) ins1 st)
      else if String.eqb choice "5" then
        prepend menu (run_analysis (SA.create_analysis "sales_distribution" []) ins1 st)
      else
        match ins1 with
        | [] => ((menu ++ [Print "Invalid choice"; Prompt "Press Enter to continue..."])%list,
                 Stop EOFError, st)
        | _ :: ins2 => ((menu ++ [Print "Invalid choice"; Prompt "Press Enter to continue..."])%list,
                        Continue ins2, st)
        end
  end.

(** The [while True] loop, on a finite input.  Every pass that goes on
    consumes at least one line, so [S (length ins)] passes always reach the
    end ([main_loop_fuel] below). *)
Fixpoint main_loop (fuel : nat) (ins : list string) (st : loader)
  : list event * main_end * loader :=
  match fuel with
  | O => ([], EOFError, st)
  | Datatypes.S fuel' =>
      match iteration ins st with
      | (ev, Stop e, st') => (ev, e, st')
      | (ev, Continue ins', st') =>
          match main_loop fuel' ins' st' with
          | (ev', e, st'') => ((ev ++ ev')%list, e, st'')
          end
      end
  end.

(** [except (FileNotFoundError, ValueError, IOError)]; [FileNotFoundError]
    derives from [IOError] ([OSError]). *)
Definition init_caught (e : exn) : bool :=
  match e with
  | FileNotFoundError _ | IOError _ => true
  | e => is_value_error e
  end.

(** [main] (lines 154-203) on the lines [ins] typed at the console, from
    whatever state the singleton instance is in. *)
Definition main (ins : list string) (st : loader) : list event * main_end * loader :=
  match SA.DataLoader_init w "sales_data.csv" st with
  | (Err e, st1) =>
      if init_caught e then ([Print ("Initialization error: " ++ exn_str e)], Returned, st1)
      else ([], Raised e, st1)
  | (Ok _, st1) => main_loop (Datatypes.S (length ins)) ins st1
  end.

End WithWorld.
End SAMain.

Module AppWeb.
Section WithWorld.
Variable w : world.
Variable sv : list (Z * Q) -> list (Z * Q).

(** The [analyze] methods of the five strategy classes (lines 83-117). *)
Definition analyze (a : App.analysis) : M report :=
  match a with
  | App.MonthlySalesAnalysis b => fmap_M DataFrameRows (App.get_monthly_sales w b)
  | App.PriceAnalysis => fmap_M DataFrameStats (App.get_product_price_analysis w)
  | App.WeeklySalesAnalysis => fmap_M SeriesTotals (App.get_weekly_sales w)
  | App.ProductPreferenceAnalysis => fmap_M SeriesTotals (App.get_product_preference w sv)
  | App.SalesDistributionAnalysis => fmap_M SeriesStats (App.get_sales_distribution w)
  end.

(** [SalesRepository.get_monthly_sales(None)]: [data['branch_id'] == None]
    is [False] in every row, and [f"{None}"] is ["None"]. *)
Definition get_monthly_sales_None : M frame :=
  wrap_value_error "Error fetching monthly sales data: "
    (df <- App.get_data w ;;
     if negb (has_column df "branch_id") then raise (key_error "branch_id") else
     let branch_data := mk_frame (columns df) (filter (fun _ => false) (rows df)) in
     match rows branch_data with
     | [] => raise (ValueError ("No data found for branch ID: " ++ "None"))
     | _ => ret branch_data
     end).

(** The HTML of [DataFrame.to_html()]. *)
Inductive html := FrameHtml (r : report).

(** [result.to_html()]: a DataFrame renders; a Series has no [to_html]
    attribute and raises [AttributeError]. *)
Definition to_html (r : report) : option html :=
  match r with
  | DataFrameRows _ | DataFrameStats _ => Some (FrameHtml r)
  | SeriesTotals _ | SeriesStats _ => None
  end.

Definition attribute_error_msg : string := "'Series' object has no attribute 'to_html'".

Inductive method := GET | POST.

(** The variables [render_template_string(TEMPLATE, ...)] receives. *)
Record page := mk_page {
  page_error : option string;
  page_result : option html;
  page_analysis_type : option string
}.

(** [request.form['analysis_type']] on a form without it raises
    [BadRequestKeyError], which Flask answers with 400 Bad Request. *)
Inductive response :=
| Render (p : page)
| BadRequest.

(** The factory call and [analysis.analyze()] of lines 145-150.  For
    ['monthly_sales'] the keyword [branch_id] is always passed, with the
    value [None] when the form lacks the field. *)
Definition run_report (analysis_type : string) (branch : option string) : M report :=
  if String.eqb analysis_type "monthly_sales" then
    match branch with
    | Some b =>
        match App.create_analysis analysis_type [("branch_id", b)] with
        | Ok a => analyze a
        | Err e => raise e
        end
    | None => fmap_M DataFrameRows get_monthly_sales_None
    end
  else
    match App.create_analysis analysis_type [] with
    | Ok a => analyze a
    | Err e => raise e
    end.

(** The route [index] (lines 138-155); [form] is the posted form, whose
    [form[k]] and [form.get(k)] take the first value for [k]. *)
Definition index (m : method) (form : list (string * string)) (st : loader)
  : response * loader :=
  match m with
  | GET => (Render (mk_page None None None), st)
  | POST =>
      match App.kw_lookup "analysis_type" form with
      | None => (BadRequest, st)
      | Some t =>
          match run_report t (App.kw_lookup "branch_id" form) st with
          | (Ok r, st') =>
              match to_html r with
              | Some h => (Render (mk_page None (Some h) (Some t)), st')
              | None => (Render (mk_page (Some attribute_error_msg) None (Some t)), st')
              end
          | (Err e, st') => (Render (mk_page (Some (exn_str e)) None (Some t)), st')
          end
      end
  end.

End WithWorld.
End AppWeb.

(** ** The sample data of [test_sales_analysis.py] *)

Definition csv_columns : list string :=
  ["branch_id"; "date"; "product_id"; "sales_amount"; "price"].

Definition sample_row (b : Z) (y m d : Z) (p : Z) (amount price : Q) : row :=
  mk_row (PyInt b) (DateOk y m d) (Some p) (Some amount) (Some price) None.

Definition sample_frame : frame :=
  mk_frame csv_columns
    [sample_row 1 2023 1 1 101 100 10; sample_row 1 2023 1 8 101 150 10;
     sample_row 1 2023 1 15 102 200 20; sample_row 2 2023 1 1 101 120 10;
     sample_row 2 2023 1 8 103 130 15; sample_row 2 2023 1 15 104 140 20].

(** A file system holding [sales_data.csv] with [contents]. *)
Definition world_with (contents : result frame) : world :=
  mk_world (fun p => String.eqb p "sales_data.csv")
           (fun p => if String.eqb p "sales_data.csv" then contents
                     else Err (FileNotFoundError "[Errno 2] No such file or directory")).

Definition sample_world : world := world_with (Ok sample_frame).

Definition sample_loaded_frame : frame := astype_branch_str sample_frame.

Definition loaded_sample : loader :=
  snd (SA.DataLoader_init sample_world "sales_data.csv" (mk_loader "" None)).


(** The sample rows under a header that names the branch column [store]. *)
Definition nobranch_frame : frame :=
  mk_frame ["store"; "date"; "product_id"; "sales_amount"; "price"] (rows sample_frame).

(** * Definitions the properties are stated with *)

(** A frame as [_load_data] leaves it: the [branch_id] column exists and every
    cell of it is a [str]. *)
Definition is_pystr (v : pyval) : bool :=
  match v with PyStr _ => true | _ => false end.

Definition branch_text (f : frame) : bool :=
  has_column f "branch_id" && forallb (fun r => is_pystr (branch_id r)) (rows f).

(** [b] occurs in the [branch_id] column. *)
Definition branch_occurs (b : string) (f : frame) : bool :=
  existsb (fun r => py_eq_str (branch_id r) b) (rows f).

(** The rows [get_monthly_sales] keeps when the branch occurs. *)
Definition monthly_sales_post (b : string) (f : frame) (st : loader)
  (out : result frame * loader) : Prop :=
  snd out = st /\
  exists g, fst out = Ok g /\
    columns g = columns f /\
    rows g = filter (fun r => py_eq_str (branch_id r) b) (rows f) /\
    (forall r, In r (rows g) <-> In r (rows f) /\ branch_id r = PyStr b) /\
    length (rows g) = length (filter (fun r => py_eq_str (branch_id r) b) (rows f)).

(** The columns a row had before [assign_week]. *)
Definition base_cells (r : row) : pyval * date_cell * option Z * option Q * option Q :=
  (branch_id r, date r, product_id r, sales_amount r, price r).

(** The loader [get_weekly_sales] leaves behind, from a loader holding [f]. *)
Definition after_weekly (st : loader) (f : frame) : loader :=
  if has_column f "date" && match first_bad_date (rows f) with None => true | Some _ => false end
  then mk_loader (file_path st) (Some (assign_week f))
  else st.

(** Once the cache holds a text column, [get_data] hands it back unchanged. *)
Definition cache_text (st : loader) : Prop :=
  match data st with Some f => branch_text f = true | None => True end.

(** The value a cell adds to a [sum]. *)
Definition oval (o : option Q) : Q := match o with Some q => q | None => 0%Q end.

Definition Q_eq_dec (x y : Q) : {x = y} + {x <> y}.
Proof. decide equality; first [apply Pos.eq_dec | apply Z.eq_dec]. Defined.

Definition ZQ_eq_dec (a b : Z * Q) : {a = b} + {a <> b}.
Proof. decide equality; first [apply Q_eq_dec | apply Z.eq_dec]. Defined.

(** [l'] is a rearrangement of [l]. *)
Definition is_perm_b (l l' : list (Z * Q)) : bool :=
  forallb (fun x => Nat.eqb (count_occ ZQ_eq_dec l x) (count_occ ZQ_eq_dec l' x)) (l ++ l').

(** Values never increase along [l]. *)
Fixpoint sorted_desc_b (l : list (Z * Q)) : bool :=
  match l with
  | a :: ((b :: _) as t) => Qle_bool (snd b) (snd a) && sorted_desc_b t
  | _ => true
  end.

(** What pandas documents for [sort_values(ascending=False)] with the default
    unstable [kind='quicksort']: a rearrangement of its input, by value
    descending; the order among equal values is not specified. *)
Definition sort_values_contract (sv : list (Z * Q) -> list (Z * Q)) (l : list (Z * Q)) : bool :=
  is_perm_b l (sv l) && sorted_desc_b (sv l).

(** One sort meeting the contract, used to instantiate [sv] on sample data. *)
Fixpoint insert_desc (x : Z * Q) (l : list (Z * Q)) : list (Z * Q) :=
  match l with
  | [] => [x]
  | y :: t => if Qlt_le_dec (snd y) (snd x) then x :: l else y :: insert_desc x t
  end.

Definition sort_desc_insertion (l : list (Z * Q)) : list (Z * Q) := fold_right insert_desc [] l.

(** ** [Series.sort_values(ascending=False)]: pandas' [nargsort] over
    numpy's [np.argsort(kind='quicksort')] on its scalar path *)

Module NpSort.
Section Argsort.
Variable v : list Q.

(** [Tag::less] for the sums, which are never NaN. *)
Definition less (x y : Q) : bool := negb (Qle_bool y x).

(** The index array [tosort], addressed by (signed) offsets. *)
Definition at_ (a : list nat) (i : Z) : nat := nth (Z.to_nat i) a O.
Definition upd (a : list nat) (i : Z) (x : nat) : list nat :=
  firstn (Z.to_nat i) a ++ x :: skipn (Datatypes.S (Z.to_nat i)) a.
Definition val (a : list nat) (i : Z) : Q := nth (at_ a i) v 0%Q.
Definition swap (a : list nat) (i j : Z) : list nat := upd (upd a i (at_ a j)) j (at_ a i).

(** [do { ++pi; } while (less(v[*pi], vp));] *)
Fixpoint scan_up (fuel : nat) (a : list nat) (pi : Z) (vp : Q) : option Z :=
  match fuel with
  | O => None
  | Datatypes.S f => if less (val a (pi + 1)) vp then scan_up f a (pi + 1) vp else Some (pi + 1)
  end.

(** [do { --pj; } while (less(vp, v[*pj]));] *)
Fixpoint scan_down (fuel : nat) (a : list nat) (pj : Z) (vp : Q) : option Z :=
  match fuel with
  | O => None
  | Datatypes.S f => if less vp (val a (pj - 1)) then scan_down f a (pj - 1) vp else Some (pj - 1)
  end.

(** [for (;;) { scan up; scan down; if (pi >= pj) break; swap(pi, pj); }] *)
Fixpoint partition_loop (fuel : nat) (a : list nat) (pi pj : Z) (vp : Q)
  : option (list nat * Z) :=
  match fuel with
  | O => None
  | Datatypes.S f =>
      match scan_up fuel a pi vp, scan_down fuel a pj vp with
      | Some pi', Some pj' =>
          if pj' <=? pi' then Some (a, pi') else partition_loop f (swap a pi' pj') pi' pj' vp
      | _, _ => None
      end
  end.

(** One pass of [while ((pr - pl) > SMALL_QUICKSORT)]: median of three,
    partition, and the larger part pushed on the stack with the decremented
    depth. The stack holds [(pl, pr, depth)]: numpy's two stacks are pushed
    and popped together. *)
Definition partition_step (fuel : nat) (a : list nat) (pl pr : Z)
  (stack : list (Z * Z * Z)) (cdepth : Z) : option (list nat * Z * Z * list (Z * Z * Z) * Z) :=
  let pm := pl + Z.shiftr (pr - pl) 1 in
  let a := if less (val a pm) (val a pl) then swap a pm pl else a in
  let a := if less (val a pr) (val a pm) then swap a pr pm else a in
  let a := if less (val a pm) (val a pl) then swap a pm pl else a in
  let vp := val a pm in
  let a := swap a pm (pr - 1) in
  match partition_loop fuel a pl (pr - 1) vp with
  | None => None
  | Some (a, pi) =>
      let a := swap a pi (pr - 1) in
      let cdepth := cdepth - 1 in
      if pi - pl <? pr - pi
      then Some (a, pl, pi - 1, (pi + 1, pr, cdepth) :: stack, cdepth)
      else Some (a, pi + 1, pr, (pl, pi - 1, cdepth) :: stack, cdepth)
  end.

Definition SMALL_QUICKSORT : Z := 16.

Fixpoint partitions (fuel : nat) (a : list nat) (pl pr : Z) (stack : list (Z * Z * Z)) (cdepth : Z)
  : option (list nat * Z * Z * list (Z * Z * Z) * Z) :=
  match fuel with
  | O => None
  | Datatypes.S f =>
      if SMALL_QUICKSORT <? pr - pl then
        match partition_step fuel a pl pr stack cdepth with
        | Some (a, pl, pr, stack, cdepth) => partitions f a pl pr stack cdepth
        | None => None
        end
      else Some (a, pl, pr, stack, cdepth)
  end.

(** [while (pj > pl && less(vp, v[*pk])) { *pj-- = *pk--; }] *)
Fixpoint insert_shift (fuel : nat) (a : list nat) (pl pj : Z) (vp : Q) : option (list nat * Z) :=
  match fuel with
  | O => None
  | Datatypes.S f =>
      if (pl <? pj) && less vp (val a (pj - 1))
      then insert_shift f (upd a pj (at_ a (pj - 1))) pl (pj - 1) vp
      else Some (a, pj)
  end.

(** [for (pi = pl + 1; pi <= pr; ++pi) { vi = *pi; ...; *pj = vi; }] *)
Fixpoint insertion (fuel : nat) (a : list nat) (pl pi pr : Z) : option (list nat) :=
  match fuel with
  | O => None
  | Datatypes.S f =>
      if pr <? pi then Some a else
      let vi := at_ a pi in
      match insert_shift fuel a pl pi (nth vi v 0%Q) with
      | Some (a, pj) => insertion f (upd a pj vi) pl (pi + 1) pr
      | None => None
      end
  end.

(** [aheapsort_] on [n] entries from [b + 1] on ([a = tosort - 1]): the
    sift-down loop [for (i = l, j = 2 l; j <= n;) ...; a[i] = tmp;]. *)
Fixpoint sift (fuel : nat) (a : list nat) (b n i j : Z) (tmp : nat) : option (list nat) :=
  match fuel with
  | O => None
  | Datatypes.S f =>
      if j <=? n then
        let j := if (j <? n) && less (val a (b + j)) (val a (b + j + 1)) then j + 1 else j in
        if less (nth tmp v 0%Q) (val a (b + j))
        then sift f (upd a (b + i) (at_ a (b + j))) b n j (j + j) tmp
        else Some (upd a (b + i) tmp)
      else Some (upd a (b + i) tmp)
  end.

(** [for (l = n >> 1; l > 0; --l) { tmp = a[l]; sift; }] *)
Fixpoint heapify (fuel : nat) (a : list nat) (b n l : Z) : option (list nat) :=
  match fuel with
  | O => None
  | Datatypes.S f =>
      if 0 <? l then
        match sift fuel a b n l (l + l) (at_ a (b + l)) with
        | Some a => heapify f a b n (l - 1)
        | None => None
        end
      else Some a
  end.

(** [for (; n > 1;) { tmp = a[n]; a[n] = a[1]; n -= 1; sift from 1; }] *)
Fixpoint pop_max (fuel : nat) (a : list nat) (b n : Z) : option (list nat) :=
  match fuel with
  | O => None
  | Datatypes.S f =>
      if 1 <? n then
        let tmp := at_ a (b + n) in
        let a := upd a (b + n) (at_ a (b + 1)) in
        match sift fuel a b (n - 1) 1 2 tmp with
        | Some a => pop_max f a b (n - 1)
        | None => None
        end
      else Some a
  end.

Definition aheapsort (fuel : nat) (a : list nat) (pl n : Z) : option (list nat) :=
  match heapify fuel a (pl - 1) n (Z.shiftr n 1) with
  | Some a => pop_max fuel a (pl - 1) n
  | None => None
  end.

(** The outer [for (;;)] of [aquicksort_]: heapsort once the depth budget is
    spent, else partition down to small ranges and insertion-sort them; then
    pop the stack. *)
Fixpoint aquicksort_loop (fuel : nat) (a : list nat) (pl pr : Z) (stack : list (Z * Z * Z))
  (cdepth : Z) : option (list nat) :=
  match fuel with
  | O => None
  | Datatypes.S f =>
      let sorted :=
        if cdepth <? 0 then
          match aheapsort fuel a pl (pr - pl + 1) with Some a => Some (a, stack) | None => None end
        else
          match partitions fuel a pl pr stack cdepth with
          | Some (a, pl, pr, stack, _) =>
              match insertion fuel a pl (pl + 1) pr with Some a => Some (a, stack) | None => None end
          | None => None
          end in
      match sorted with
      | None => None
      | Some (a, []) => Some a
      | Some (a, (pl, pr, d) :: stack) => aquicksort_loop f a pl pr stack d
      end
  end.

(** [npy_get_msb] *)
Fixpoint msb_fuel (fuel : nat) (n : Z) : Z :=
  match fuel with
  | O => 0
  | Datatypes.S f => if 1 <? n then 1 + msb_fuel f (Z.shiftr n 1) else 0
  end.
Definition get_msb (n : Z) : Z := msb_fuel 64 n.

End Argsort.

(** Enough steps for every loop: each runs fewer than [(n + 2)^2] times. *)
Definition fuel_for (n : nat) : nat := ((n + 2) * (n + 2))%nat.

(** [np.argsort(kind='quicksort')]: [aquicksort_] on [tosort = arange(n)]. *)
Definition argsort (v : list Q) : option (list nat) :=
  let num := Z.of_nat (length v) in
  aquicksort_loop v (fuel_for (length v)) (seq 0 (length v)) 0 (num - 1) [] (get_msb num * 2).

(** [nargsort(items, 'quicksort', ascending=False)] with no NaN: reverse,
    argsort, index the reversed positions, reverse. *)
Definition nargsort_desc (items : list Q) : option (list nat) :=
  let n := length items in
  let non_nan_idx := rev (seq 0 n) in
  match argsort (rev items) with
  | Some a => Some (rev (map (fun i => nth i non_nan_idx O) a))
  | None => None
  end.
End NpSort.

(** [Series.sort_values(ascending=False)] on the product totals. *)
Definition numpy_sort_values_desc (s : list (Z * Q)) : list (Z * Q) :=
  match NpSort.nargsort_desc (map snd s) with
  | Some idx => map (fun i => nth i s (0, 0%Q)) idx
  | None => s
  end.


(** Rows with a missing [product_id] and a missing [date]: the CSV line
    [1,,,50,10]. *)
Definition gap_frame : frame :=
  mk_frame csv_columns
    [mk_row (PyStr "1") (DateOk 2023 1 2) (Some 101) (Some 100%Q) (Some 10%Q) None;
     mk_row (PyStr "1") DateNaN None (Some 50%Q) (Some 10%Q) None].

Definition gap_loader : loader := mk_loader "sales_data.csv" (Some gap_frame).

(** Eighteen products with the same total. *)
Definition tie_frame : frame :=
  mk_frame csv_columns
    (map (fun k => mk_row (PyStr "1") (DateOk 2023 1 2) (Some k) (Some 100%Q) (Some 10%Q) None)
         (map (fun i => 101 + Z.of_nat i) (seq 0 18))).

Definition tie_loader : loader := mk_loader "sales_data.csv" (Some tie_frame).

Definition describe_labels : list string :=
  ["count"; "mean"; "std"; "min"; "25%"; "50%"; "75%"; "max"].

Definition find_stat (s : string) (d : list (string * stat)) : option stat :=
  option_map snd (find (fun p => String.eqb (fst p) s) d).

Definition present (o : option Q) : bool := match o with Some _ => true | None => false end.

Definition sum_R (xs : list R) : R := fold_right Rplus 0%R xs.

(** The sample standard deviation of [xs] over the reals: the squared
    deviations from the mean, divided by [n - 1], under a square root. *)
Definition sample_std_R (xs : list Q) : R :=
  let n := INR (length xs) in
  let m := (sum_R (map Q2R xs) / n)%R in
  sqrt (sum_R (map (fun x => (Q2R x - m) ^ 2)%R xs) / (n - 1))%R.

(** The shape of [col.describe()]: the eight labels; [count] is the number of
    present cells; [std] is the sample standard deviation when there are at
    least two, NaN otherwise. *)
Definition describe_post (col : list (option Q)) (d : list (string * stat)) : Prop :=
  map fst d = describe_labels /\
  find_stat "count" d = Some (SCount (length (filter present col))) /\
  find_stat "std" d =
    Some (SStd (if Nat.leb 2 (length (filter present col))
                then Some (sample_std_R (somes col)) else None)).

Definition err_class {A} (r : result A) : option exn_class :=
  match r with Ok _ => None | Err e => Some (exn_class_of e) end.

(** What [pd.read_csv] raised, by class. *)
Definition read_fails_with (w : world) (p : string) (c : exn_class) : Prop :=
  exists e, read_csv w p = Err e /\ exn_class_of e = c.

(** [pd.read_csv] returned a table without a [branch_id] column. *)
Definition read_without_branch (w : world) (p : string) : Prop :=
  exists f, read_csv w p = Ok f /\ has_column f "branch_id" = false.

(** Two runs agree: same loader afterwards, same value, or both raise an
    exception of the same class. *)
Definition same_outcome {A} (o1 o2 : result A * loader) : Prop :=
  snd o1 = snd o2 /\
  match fst o1, fst o2 with
  | Ok a, Ok b => a = b
  | Err e1, Err e2 => exn_class_of e1 = exn_class_of e2
  | _, _ => False
  end.

Definition report_names : list string :=
  ["monthly_sales"; "price"; "weekly_sales"; "product_preference"; "sales_distribution"].

Definition unknown_report (name : string) : bool :=
  negb (existsb (String.eqb name) report_names).

(** Definitions for the command line, the route and the loader. *)

Definition no_unexpected (ev : list event) : Prop :=
  forall s, In (Print s) ev -> String.prefix "An unexpected error occurred: " s = false.

Definition iter_ok (t : list event * next * loader) : Prop :=
  match t with (ev, n, _) => no_unexpected ev /\ forall e, n <> Stop (Raised e) end.

Definition reported {A} (g : A -> report) (r : result A) : list event :=
  match r with
  | Ok v => [Print "Result:"; PrintReport (g v)]
  | Err e => [Print ("Value error: " ++ exn_str e)]
  end.

Definition missing_world : world :=
  mk_world (fun _ => false) (fun _ => Err (FileNotFoundError "[Errno 2] No such file or directory")).

Definition sample_weekly : list (Z * Q) :=
  match fst (SA.get_weekly_sales sample_world loaded_sample) with Ok l => l | Err _ => [] end.

Definition sample_weekly_loader : loader := snd (SA.get_weekly_sales sample_world loaded_sample).

Definition header_only_frame : frame := mk_frame csv_columns [].

Definition header_only_loader : loader :=
  snd (SA.DataLoader_init (world_with (Ok header_only_frame)) "sales_data.csv" (mk_loader "" None)).

Definition sample_price : list (Z * list (string * stat)) :=
  match fst (SA.get_product_price_analysis sample_world loaded_sample) with Ok t => t | Err _ => [] end.

(** The loader of a command-line session on the file [p] whose table [f] was
    loaded: the table as read, or with the [week] column added. *)
Definition session_state (p : string) (f : frame) (st : loader) : Prop :=
  st = mk_loader p (Some f) \/ st = mk_loader p (Some (assign_week f)).

(** * Properties *)

(** Checks of the calendar against Python's [isocalendar] and of the
    repository's own unit test [test_get_monthly_sales]. *)
Example iso_week_2023_01_01 : iso_week 2023 1 1 = 52. Proof. reflexivity. Qed.
Example iso_week_2023_01_02 : iso_week 2023 1 2 = 1. Proof. reflexivity. Qed.
Example iso_week_2021_01_03 : iso_week 2021 1 3 = 53. Proof. reflexivity. Qed.
Example iso_week_2024_12_30 : iso_week 2024 12 30 = 1. Proof. reflexivity. Qed.

Example sample_monthly_1 :
  match fst (SA.get_monthly_sales sample_world "1" loaded_sample) with
  | Ok f => length (rows f) = 3%nat
  | Err _ => False
  end.
Proof. vm_compute. reflexivity. Qed.

Lemma py_eq_str_spec (v : pyval) (b : string) :
  py_eq_str v b = true <-> v = PyStr b.
Proof.
  destruct v; simpl; split; intro H; try discriminate.
  - apply String.eqb_eq in H; now subst.
  - inversion H; subst; apply String.eqb_refl.
Qed.

Lemma SA_get_data_cached (w : world) (st : loader) (f : frame) :
  data st = Some f -> SA.get_data w st = (Ok f, st).
Proof. intro H. unfold SA.get_data, bind, get. rewrite H. reflexivity. Qed.

Lemma App_get_data_cached (w : world) (st : loader) (f : frame) :
  data st = Some f -> App.get_data w st = (Ok f, st).
Proof. intro H. unfold App.get_data, bind, get. rewrite H. reflexivity. Qed.

Lemma monthly_sales_post_intro (b : string) (f : frame) (st : loader) :
  has_column f "branch_id" = true ->
  branch_occurs b f = true ->
  forall m : M frame,
  m st = (let g := mk_frame (columns f) (filter (fun r => py_eq_str (branch_id r) b) (rows f)) in
          match rows g with
          | [] => (Err (ValueError ("No data found for branch ID: " ++ b)), st)
          | _ => (Ok g, st)
          end) ->
  monthly_sales_post b f st (wrap_value_error "Error fetching monthly sales data: " m st).
Proof.
  intros Hcol Hocc m Hm.
  unfold branch_occurs in Hocc. apply existsb_exists in Hocc. destruct Hocc as [r0 [Hin0 Hb0]].
  unfold wrap_value_error. rewrite Hm. simpl.
  destruct (filter (fun r => py_eq_str (branch_id r) b) (rows f)) eqn:Hf.
  - exfalso. assert (In r0 (filter (fun r => py_eq_str (branch_id r) b) (rows f))).
    { apply filter_In. split; [exact Hin0 | exact Hb0]. }
    rewrite Hf in H. exact H.
  - split; [reflexivity|]. eexists; split; [reflexivity|]. simpl.
    rewrite <- Hf. split; [reflexivity|]. split; [reflexivity|].
    split; [|now rewrite Hf]. intro x.
    change (In x (r :: l) <-> In x (rows f) /\ branch_id x = PyStr b).
    rewrite <- Hf, filter_In, py_eq_str_spec. tauto.
Qed.

(** C1: for a branch identifier that occurs in the loaded frame,
    [get_monthly_sales] (in both [sales_analysis.py] and [app.py]) returns
    exactly the rows whose [branch_id] is that string, as many as match, in
    the frame's order, and leaves the loader unchanged. *)
Theorem monthly_sales_exact (w : world) (st : loader) (f : frame) (b : string)
  (Hdata : data st = Some f) (Htext : branch_text f = true)
  (Hocc : branch_occurs b f = true) :
  monthly_sales_post b f st (SA.get_monthly_sales w b st) /\
  monthly_sales_post b f st (App.get_monthly_sales w b st).
Proof.
  unfold branch_text in Htext. apply andb_prop in Htext. destruct Htext as [Hcol _].
  split; apply monthly_sales_post_intro; auto;
    unfold bind; [rewrite (SA_get_data_cached w st f Hdata) | rewrite (App_get_data_cached w st f Hdata)];
    rewrite Hcol; simpl; destruct (filter _ _); reflexivity.
Qed.

Lemma monthly_sales_exact_witness :
  data loaded_sample = Some sample_loaded_frame /\
  branch_text sample_loaded_frame = true /\
  branch_occurs "1" sample_loaded_frame = true /\
  monthly_sales_post "1" sample_loaded_frame loaded_sample
    (SA.get_monthly_sales sample_world "1" loaded_sample) /\
  monthly_sales_post "1" sample_loaded_frame loaded_sample
    (App.get_monthly_sales sample_world "1" loaded_sample).
Proof.
  assert (H1 : data loaded_sample = Some sample_loaded_frame) by (vm_compute; reflexivity).
  assert (H2 : branch_text sample_loaded_frame = true) by (vm_compute; reflexivity).
  assert (H3 : branch_occurs "1" sample_loaded_frame = true) by (vm_compute; reflexivity).
  split; [exact H1|]. split; [exact H2|]. split; [exact H3|].
  exact (monthly_sales_exact sample_world loaded_sample sample_loaded_frame "1" H1 H2 H3).
Defined.

(** Running a repository method on a loader that already holds a frame. *)
Ltac run_cached H :=
  unfold wrap_value_error, bind;
  first [rewrite (SA_get_data_cached _ _ _ H) | rewrite (App_get_data_cached _ _ _ H)];
  cbn -[has_column groupby_sum groupby_describe describe assign_week].

(** C6 (amended): for a branch identifier absent from the loaded frame,
    [get_monthly_sales] fails with a [ValueError] whose message names the
    report and the branch, and leaves the loader unchanged. *)
Theorem monthly_sales_absent (w : world) (st : loader) (f : frame) (b : string)
  (Hdata : data st = Some f) (Htext : branch_text f = true)
  (Habs : branch_occurs b f = false) :
  SA.get_monthly_sales w b st =
    (Err (ValueError ("Error fetching monthly sales data: No data found for branch ID: " ++ b)), st).
Proof.
  unfold branch_text in Htext. apply andb_prop in Htext. destruct Htext as [Hcol _].
  unfold SA.get_monthly_sales. run_cached Hdata. rewrite Hcol. cbn.
  assert (Hnil : filter (fun r => py_eq_str (branch_id r) b) (rows f) = []).
  { unfold branch_occurs in Habs.
    destruct (filter (fun r => py_eq_str (branch_id r) b) (rows f)) as [|x l] eqn:Hf; [reflexivity|].
    exfalso. assert (Hx : In x (filter (fun r => py_eq_str (branch_id r) b) (rows f)))
      by (rewrite Hf; left; reflexivity).
    apply filter_In in Hx. destruct Hx as [Hin Hx].
    assert (existsb (fun r => py_eq_str (branch_id r) b) (rows f) = true)
      by (apply existsb_exists; eauto).
    congruence. }
  rewrite Hnil. reflexivity.
Qed.

Lemma monthly_sales_absent_witness :
  data loaded_sample = Some sample_loaded_frame /\
  branch_text sample_loaded_frame = true /\
  branch_occurs "3" sample_loaded_frame = false /\
  SA.get_monthly_sales sample_world "3" loaded_sample =
    (Err (ValueError ("Error fetching monthly sales data: No data found for branch ID: " ++ "3")),
     loaded_sample).
Proof.
  assert (H1 : data loaded_sample = Some sample_loaded_frame) by (vm_compute; reflexivity).
  assert (H2 : branch_text sample_loaded_frame = true) by (vm_compute; reflexivity).
  assert (H3 : branch_occurs "3" sample_loaded_frame = false) by (vm_compute; reflexivity).
  split; [exact H1|]. split; [exact H2|]. split; [exact H3|].
  exact (monthly_sales_absent sample_world loaded_sample sample_loaded_frame "3" H1 H2 H3).
Defined.

(** C6 counterexample: the absent branch is reported with [ValueError], the
    class [get_monthly_sales] also gives a fault of the reload (here, a
    missing file), and not with the [FileNotFoundError] the loader uses for
    absence. *)
Lemma monthly_sales_absent_class_not_distinct :
  fst (SA.get_monthly_sales sample_world "3" loaded_sample) =
    Err (ValueError "Error fetching monthly sales data: No data found for branch ID: 3") /\
  fst (SA.get_monthly_sales sample_world "3" (mk_loader "missing.csv" None)) =
    Err (ValueError "Error fetching monthly sales data: The file missing.csv does not exist.") /\
  exn_class_of (ValueError "Error fetching monthly sales data: No data found for branch ID: 3") =
  exn_class_of (ValueError "Error fetching monthly sales data: The file missing.csv does not exist.") /\
  exn_class_of (ValueError "Error fetching monthly sales data: No data found for branch ID: 3")
    <> FileNotFoundErrorC.
Proof. vm_compute. repeat split; discriminate. Qed.

Lemma assign_week_keeps (f : frame) :
  map base_cells (rows (assign_week f)) = map base_cells (rows f) /\
  (forall c, In c (columns f) -> In c (columns (assign_week f))) /\
  has_column (assign_week f) "week" = true.
Proof.
  unfold assign_week; simpl. split; [|split].
  - rewrite map_map. reflexivity.
  - intros c Hc. destruct (has_column f "week"); [exact Hc | apply in_or_app; now left].
  - unfold has_column at 1; simpl.
    destruct (has_column f "week") eqn:Hw; [exact Hw|].
    apply existsb_exists. exists "week". split; [apply in_or_app; right; now left | reflexivity].
Qed.

(** How the five reports leave a loader that holds a frame. *)
Lemma reports_state (w : world) (st : loader) (f : frame) (b : string)
  (sv : list (Z * Q) -> list (Z * Q)) (Hdata : data st = Some f) :
  snd (SA.get_monthly_sales w b st) = st /\ snd (App.get_monthly_sales w b st) = st /\
  snd (SA.get_product_price_analysis w st) = st /\ snd (App.get_product_price_analysis w st) = st /\
  snd (SA.get_product_preference w sv st) = st /\ snd (App.get_product_preference w sv st) = st /\
  snd (SA.get_sales_distribution w st) = st /\ snd (App.get_sales_distribution w st) = st /\
  snd (SA.get_weekly_sales w st) = after_weekly st f /\
  snd (App.get_weekly_sales w st) = after_weekly st f.
Proof.
  unfold SA.get_monthly_sales, App.get_monthly_sales, SA.get_product_price_analysis,
    App.get_product_price_analysis, SA.get_product_preference, App.get_product_preference,
    SA.get_sales_distribution, App.get_sales_distribution, SA.get_weekly_sales,
    App.get_weekly_sales, after_weekly.
  repeat split; run_cached Hdata;
    repeat match goal with
           | |- context [has_column ?g ?c] => destruct (has_column g c)
           | |- context [first_bad_date ?l] => destruct (first_bad_date l)
           | |- context [match ?c with [] => _ | _ :: _ => _ end] => destruct c
           end; reflexivity.
Qed.

(** C7 (amended): of the five reports only [get_weekly_sales] changes the
    cached frame.  Once the [date] column exists and parses, it stores the
    frame with a [week] column in the loader, where later calls see it; all
    other cells are unchanged.  The other four reports leave the loader as it
    was.  In [sales_analysis.py] and [app.py] alike. *)
Theorem reports_frame_effect (w : world) (st : loader) (f : frame) (b : string)
  (sv : list (Z * Q) -> list (Z * Q)) (Hdata : data st = Some f) :
  snd (SA.get_monthly_sales w b st) = st /\ snd (App.get_monthly_sales w b st) = st /\
  snd (SA.get_product_price_analysis w st) = st /\ snd (App.get_product_price_analysis w st) = st /\
  snd (SA.get_product_preference w sv st) = st /\ snd (App.get_product_preference w sv st) = st /\
  snd (SA.get_sales_distribution w st) = st /\ snd (App.get_sales_distribution w st) = st /\
  snd (SA.get_weekly_sales w st) = after_weekly st f /\
  snd (App.get_weekly_sales w st) = after_weekly st f /\
  map base_cells (rows (assign_week f)) = map base_cells (rows f) /\
  has_column (assign_week f) "week" = true.
Proof.
  destruct (assign_week_keeps f) as [Hk [_ Hw]].
  destruct (reports_state w st f b sv Hdata) as (H1 & H2 & H3 & H4 & H5 & H6 & H7 & H8 & H9 & H10).
  repeat split; assumption.
Qed.

(** The witness: the sample loader, which holds the loaded sample frame. *)
Lemma reports_frame_effect_witness :
  data loaded_sample = Some sample_loaded_frame /\
  snd (SA.get_weekly_sales sample_world loaded_sample) = after_weekly loaded_sample sample_loaded_frame.
Proof.
  assert (H : data loaded_sample = Some sample_loaded_frame) by (vm_compute; reflexivity).
  split; [exact H|].
  apply (reports_frame_effect sample_world loaded_sample sample_loaded_frame "1" (fun l => l) H).
Defined.

(** C7 counterexample: on the repository's sample data, the loader holds a
    different frame after [get_weekly_sales] than before: it has gained the
    [week] column. *)
Lemma weekly_sales_mutates_cache :
  data (snd (SA.get_weekly_sales sample_world loaded_sample)) <> data loaded_sample /\
  option_map columns (data (snd (SA.get_weekly_sales sample_world loaded_sample))) =
    Some (csv_columns ++ ["week"])%list /\
  option_map columns (data loaded_sample) = Some csv_columns.
Proof. vm_compute. split; [discriminate | split; reflexivity]. Qed.

Lemma astype_branch_str_text (f : frame) :
  has_column f "branch_id" = true -> branch_text (astype_branch_str f) = true.
Proof.
  intro H. unfold branch_text. apply andb_true_intro; split; [exact H|].
  apply forallb_forall. intros r Hr. unfold astype_branch_str in Hr; simpl in Hr.
  apply in_map_iff in Hr. destruct Hr as [x [<- _]]. reflexivity.
Qed.

Lemma assign_week_text (f : frame) :
  branch_text f = true -> branch_text (assign_week f) = true.
Proof.
  unfold branch_text. intro H. apply andb_prop in H. destruct H as [Hc Hr].
  apply andb_true_intro. split.
  - unfold has_column in *. apply existsb_exists in Hc. destruct Hc as [c [Hin Heq]].
    apply existsb_exists. exists c. split; [|exact Heq].
    destruct (assign_week_keeps f) as [_ [Hcols _]]. now apply Hcols.
  - apply forallb_forall. intros r Hin. unfold assign_week in Hin; simpl in Hin.
    apply in_map_iff in Hin. destruct Hin as [x [<- Hx]]. simpl.
    rewrite forallb_forall in Hr. now apply Hr.
Qed.

Lemma filter_text (f : frame) (p : row -> bool) :
  branch_text f = true -> branch_text (mk_frame (columns f) (filter p (rows f))) = true.
Proof.
  unfold branch_text. intro H. apply andb_prop in H. destruct H as [Hc Hr].
  apply andb_true_intro; split; [exact Hc|]. simpl.
  rewrite forallb_forall in *. intros r Hin.
  apply filter_In in Hin. now apply Hr.
Qed.

(** A successful [_load_data] leaves a text [branch_id] column in the cache. *)
Lemma load_data_text (w : world) (st : loader) :
  (fst (SA.load_data w st) = Ok tt ->
   exists f, data (snd (SA.load_data w st)) = Some f /\ branch_text f = true) /\
  (fst (App.load_data w st) = Ok tt ->
   exists f, data (snd (App.load_data w st)) = Some f /\ branch_text f = true).
Proof.
  unfold SA.load_data, App.load_data, try_except, bind, get, set_data, raise; simpl.
  destruct (path_exists w (file_path st)); simpl; [|split; discriminate].
  destruct (read_csv w (file_path st)) as [f|e]; simpl; [|split; discriminate].
  destruct (has_column f "branch_id") eqn:Hc; simpl; [|split; discriminate].
  split; intros _; exists (astype_branch_str f); split; try reflexivity;
    now apply astype_branch_str_text.
Qed.

(** C8: after every successful load (constructor or [_load_data], in both
    files) the cached [branch_id] column is text; every report keeps it text
    in the cache, and the rows [get_monthly_sales] returns carry it as text. *)
Theorem branch_id_text_invariant (w : world) :
  (forall p st0, fst (SA.DataLoader_init w p st0) = Ok tt ->
     exists f, data (snd (SA.DataLoader_init w p st0)) = Some f /\ branch_text f = true) /\
  (forall p st0, fst (App.DataLoader_init w p st0) = Ok tt ->
     exists f, data (snd (App.DataLoader_init w p st0)) = Some f /\ branch_text f = true) /\
  (forall st f b sv, data st = Some f -> branch_text f = true ->
     cache_text (snd (SA.get_monthly_sales w b st)) /\ cache_text (snd (App.get_monthly_sales w b st)) /\
     cache_text (snd (SA.get_product_price_analysis w st)) /\
     cache_text (snd (App.get_product_price_analysis w st)) /\
     cache_text (snd (SA.get_weekly_sales w st)) /\ cache_text (snd (App.get_weekly_sales w st)) /\
     cache_text (snd (SA.get_product_preference w sv st)) /\
     cache_text (snd (App.get_product_preference w sv st)) /\
     cache_text (snd (SA.get_sales_distribution w st)) /\
     cache_text (snd (App.get_sales_distribution w st)) /\
     (forall g, fst (SA.get_monthly_sales w b st) = Ok g -> branch_text g = true) /\
     (forall g, fst (App.get_monthly_sales w b st) = Ok g -> branch_text g = true)).
Proof.
  split; [|split].
  - intros p st0. apply (load_data_text w (mk_loader p None)).
  - intros p st0. apply (load_data_text w (mk_loader p None)).
  - intros st f b sv Hdata Htext.
    destruct (reports_state w st f b sv Hdata) as (H1 & H2 & H3 & H4 & H5 & H6 & H7 & H8 & H9 & H10).
    assert (Hst : cache_text st) by (unfold cache_text; now rewrite Hdata).
    assert (Hw : cache_text (after_weekly st f)).
    { unfold after_weekly. destruct (_ && _); [unfold cache_text; simpl; now apply assign_week_text | exact Hst]. }
    rewrite H1, H2, H3, H4, H5, H6, H7, H8, H9, H10.
    do 10 (split; [assumption|]).
    split; intros g Hg;
      [unfold SA.get_monthly_sales in Hg | unfold App.get_monthly_sales in Hg];
      revert Hg; run_cached Hdata;
      destruct (has_column f "branch_id"); simpl; try discriminate;
      destruct (filter _ _) eqn:Hf; simpl; try discriminate;
      intro Hg; inversion Hg; subst; rewrite <- Hf; now apply filter_text.
Qed.

(** ** [groupby] sums partition the rows that have a key *)

Lemma insert_key_In (k x : Z) (l : list Z) : In x (insert_key k l) <-> k = x \/ In x l.
Proof.
  induction l as [|y t IH]; simpl.
  - tauto.
  - destruct (k <? y) eqn:Hlt; simpl; [tauto|].
    destruct (k =? y) eqn:Heq; simpl.
    + apply Z.eqb_eq in Heq. subst. tauto.
    + rewrite IH. tauto.
Qed.

Lemma insert_key_sorted (k : Z) (l : list Z) :
  StronglySorted Z.lt l -> StronglySorted Z.lt (insert_key k l).
Proof.
  induction l as [|y t IH]; simpl; intro Hs.
  - repeat constructor.
  - apply StronglySorted_inv in Hs. destruct Hs as [Ht Hy].
    destruct (k <? y) eqn:Hlt.
    + apply Z.ltb_lt in Hlt. constructor; [now constructor|].
      constructor; [exact Hlt|]. eapply Forall_impl; [|exact Hy]. simpl; intros; lia.
    + destruct (k =? y) eqn:Heq; [now constructor|].
      apply Z.ltb_ge in Hlt. apply Z.eqb_neq in Heq.
      constructor; [now apply IH|]. apply Forall_forall. intros x Hx.
      apply insert_key_In in Hx. destruct Hx as [->|Hx]; [lia|].
      rewrite Forall_forall in Hy. now apply Hy.
Qed.

Lemma strongly_sorted_nodup (l : list Z) : StronglySorted Z.lt l -> NoDup l.
Proof.
  induction l as [|y t IH]; intro Hs; constructor.
  - apply StronglySorted_inv in Hs. destruct Hs as [_ Hy]. intro Hin.
    rewrite Forall_forall in Hy. specialize (Hy y Hin). lia.
  - apply IH. now apply StronglySorted_inv in Hs.
Qed.

Lemma group_keys_sorted (key : row -> option Z) (rs : list row) :
  StronglySorted Z.lt (group_keys key rs).
Proof.
  induction rs as [|r rs IH]; simpl; [constructor|].
  destruct (key r); [now apply insert_key_sorted | exact IH].
Qed.

Lemma group_keys_In (key : row -> option Z) (rs : list row) (k : Z) :
  In k (group_keys key rs) <-> exists r, In r rs /\ key r = Some k.
Proof.
  induction rs as [|r rs IH]; simpl.
  - split; [tauto|]. intros [r [[] _]].
  - destruct (key r) as [k'|] eqn:Hk.
    + rewrite insert_key_In, IH. split.
      * intros [->|[r' [Hin Hr']]]; [exists r; auto | exists r'; auto].
      * intros [r' [[<-|Hin] Hr']]; [left; congruence | right; exists r'; auto].
    + rewrite IH. split.
      * intros [r' [Hin Hr']]. exists r'; auto.
      * intros [r' [[<-|Hin] Hr']]; [congruence | exists r'; auto].
Qed.

Lemma sum_skipna_cons (o : option Q) (l : list (option Q)) :
  (sum_skipna (o :: l) == oval o + sum_skipna l)%Q.
Proof. destruct o; simpl; [reflexivity | ring]. Qed.

Lemma sumQ_zeros {A} (ks : list A) : (sumQ (map (fun _ => 0%Q) ks) == 0)%Q.
Proof. induction ks as [|k ks IH]; simpl; [reflexivity|]. rewrite IH. ring. Qed.

Lemma sumQ_plus {A} (f g : A -> Q) (ks : list A) :
  (sumQ (map (fun k => f k + g k)%Q ks) == sumQ (map f ks) + sumQ (map g ks))%Q.
Proof. induction ks as [|k ks IH]; simpl; [reflexivity|]. rewrite IH. ring. Qed.

Lemma sumQ_ext {A} (f g : A -> Q) (ks : list A) :
  (forall k, In k ks -> (f k == g k)%Q) -> (sumQ (map f ks) == sumQ (map g ks))%Q.
Proof.
  induction ks as [|k ks IH]; simpl; intro H; [reflexivity|].
  rewrite (H k (or_introl eq_refl)), IH; [reflexivity|]. intros; apply H; auto.
Qed.

(** Over distinct keys, a value counted under its own key is counted once. *)
Lemma sumQ_indicator (ks : list Z) (o : option Z) (v : Q) :
  NoDup ks ->
  (sumQ (map (fun k => if match o with Some k' => k' =? k | None => false end then v else 0)%Q ks)
   == if match o with Some k' => existsb (Z.eqb k') ks | None => false end then v else 0)%Q.
Proof.
  induction ks as [|k ks IH]; intro Hnd; simpl; [destruct o; reflexivity|].
  apply NoDup_cons_iff in Hnd. destruct Hnd as [Hk Hnd].
  rewrite IH by exact Hnd. destruct o as [k'|]; [|simpl; ring].
  destruct (k' =? k) eqn:He; simpl.
  - apply Z.eqb_eq in He. subst.
    destruct (existsb (Z.eqb k) ks) eqn:Hex; [|ring].
    exfalso. apply existsb_exists in Hex. destruct Hex as [x [Hx Hxe]].
    apply Z.eqb_eq in Hxe. subst. contradiction.
  - ring.
Qed.

Lemma sum_groups (key : row -> option Z) (col : row -> option Q) (ks : list Z) (rs : list row) :
  NoDup ks ->
  (sumQ (map (fun k => sum_skipna (group_vals key col k rs)) ks)
   == sum_skipna (map col (filter (fun r => match key r with
                                          | Some k => existsb (Z.eqb k) ks
                                          | None => false end) rs)))%Q.
Proof.
  intro Hnd. induction rs as [|r rs IH]; simpl.
  - apply sumQ_zeros.
  - unfold group_vals in *; simpl.
    rewrite (sumQ_ext _ (fun k => (if match key r with Some k' => k' =? k | None => false end
                                   then oval (col r) else 0) +
                                  sum_skipna (map col (filter (fun r0 => match key r0 with
                                     | Some k' => k' =? k | None => false end) rs)))%Q).
    2:{ intros k _. destruct (match key r with Some k' => k' =? k | None => false end);
        simpl; [apply sum_skipna_cons | ring]. }
    rewrite sumQ_plus, IH, sumQ_indicator by exact Hnd.
    destruct (match key r with Some k => existsb (Z.eqb k) ks | None => false end); simpl;
      [symmetry; apply sum_skipna_cons | ring].
Qed.

(** The totals of [df.groupby(key)[col].sum()] add up to the column's sum over
    the rows whose key is present. *)
Lemma groupby_sum_total (key : row -> option Z) (col : row -> option Q) (rs : list row) :
  (sumQ (map snd (groupby_sum key col rs))
   == sum_skipna (map col (filter (fun r => match key r with Some _ => true | None => false end) rs)))%Q.
Proof.
  unfold groupby_sum. rewrite map_map. simpl.
  rewrite sum_groups by (apply strongly_sorted_nodup, group_keys_sorted).
  assert (Hf : filter (fun r => match key r with
                                | Some k => existsb (Z.eqb k) (group_keys key rs)
                                | None => false end) rs =
               filter (fun r => match key r with Some _ => true | None => false end) rs).
  { apply filter_ext_in. intros r Hr. destruct (key r) as [k|] eqn:Hk; [|reflexivity].
    apply existsb_exists. exists k. split; [|apply Z.eqb_refl].
    apply group_keys_In. exists r; auto. }
  rewrite Hf. reflexivity.
Qed.

Lemma sumQ_perm (l l' : list Q) : Permutation l l' -> (sumQ l == sumQ l')%Q.
Proof.
  induction 1; simpl.
  - reflexivity.
  - rewrite IHPermutation. reflexivity.
  - ring.
  - rewrite IHPermutation1. exact IHPermutation2.
Qed.

(** ** The contract of [Series.sort_values(ascending=False)] *)

Lemma is_perm_b_sound (l l' : list (Z * Q)) : is_perm_b l l' = true -> Permutation l l'.
Proof.
  unfold is_perm_b. intro H. apply (Permutation_count_occ ZQ_eq_dec). intro x.
  destruct (in_dec ZQ_eq_dec x (l ++ l')) as [Hin|Hout].
  - rewrite forallb_forall in H. apply Nat.eqb_eq. now apply H.
  - rewrite in_app_iff in Hout.
    rewrite (proj1 (count_occ_not_In ZQ_eq_dec l x)) by tauto.
    rewrite (proj1 (count_occ_not_In ZQ_eq_dec l' x)) by tauto. reflexivity.
Qed.

Lemma sorted_desc_b_sound (l : list (Z * Q)) :
  sorted_desc_b l = true -> Sorted (fun a b => (snd b <= snd a)%Q) l.
Proof.
  induction l as [|a t IH]; intro H; [constructor|].
  destruct t as [|b t']; [repeat constructor|].
  simpl in H. apply andb_prop in H. destruct H as [Hab Ht].
  constructor; [now apply IH|]. constructor. now apply Qle_bool_iff.
Qed.

Lemma week_filter (f : frame) :
  map sales_amount (filter (fun r => match week r with Some _ => true | None => false end)
                           (rows (assign_week f))) =
  map sales_amount (filter (fun r => match week_of (date r) with Some _ => true | None => false end)
                           (rows f)).
Proof.
  unfold assign_week; simpl. induction (rows f) as [|r rs IH]; simpl; [reflexivity|].
  destruct (week_of (date r)); simpl; [f_equal|]; exact IH.
Qed.

Ltac cached_ok H :=
  run_cached H;
  repeat match goal with
         | |- context [has_column ?g ?c] => destruct (has_column g c)
         | |- context [first_bad_date ?l] => destruct (first_bad_date l)
         | |- context [match ?c with [] => _ | _ :: _ => _ end] => destruct c eqn:?
         end; cbn; try discriminate; intro Hres; inversion Hres; subst; auto.

Lemma weekly_sales_ok (w : world) (st : loader) (f : frame) (l : list (Z * Q)) :
  data st = Some f ->
  (fst (SA.get_weekly_sales w st) = Ok l \/ fst (App.get_weekly_sales w st) = Ok l) ->
  l = groupby_sum week sales_amount (rows (assign_week f)).
Proof.
  intros Hd [Hl|Hl]; revert Hl;
    [unfold SA.get_weekly_sales | unfold App.get_weekly_sales]; cached_ok Hd.
Qed.

Lemma product_preference_ok (w : world) (st : loader) (f : frame) sv (l : list (Z * Q)) :
  data st = Some f ->
  (fst (SA.get_product_preference w sv st) = Ok l \/
   fst (App.get_product_preference w sv st) = Ok l) ->
  l = sv (groupby_sum product_id sales_amount (rows f)).
Proof.
  intros Hd [Hl|Hl]; revert Hl;
    [unfold SA.get_product_preference | unfold App.get_product_preference]; cached_ok Hd.
Qed.

(** C2 (amended): the weekly totals add up to the [sales_amount] sum over the
    rows whose [date] is present, and the product totals (in whatever order
    [sort_values] returns them) add up to the sum over the rows whose
    [product_id] is present.  [groupby] leaves out rows whose key is missing. *)
Theorem group_totals_partition (w : world) (st : loader) (f : frame)
  (sv : list (Z * Q) -> list (Z * Q)) (Hdata : data st = Some f)
  (Hsv : is_perm_b (groupby_sum product_id sales_amount (rows f))
                   (sv (groupby_sum product_id sales_amount (rows f))) = true) :
  (forall l, fst (SA.get_weekly_sales w st) = Ok l ->
     (sumQ (map snd l) ==
      sum_skipna (map sales_amount
        (filter (fun r => match week_of (date r) with Some _ => true | None => false end) (rows f))))%Q) /\
  (forall l, fst (SA.get_product_preference w sv st) = Ok l ->
     (sumQ (map snd l) ==
      sum_skipna (map sales_amount
        (filter (fun r => match product_id r with Some _ => true | None => false end) (rows f))))%Q).
Proof.
  split; intros l Hl.
  - rewrite (weekly_sales_ok w st f l Hdata (or_introl Hl)).
    rewrite groupby_sum_total, week_filter. reflexivity.
  - rewrite (product_preference_ok w st f sv l Hdata (or_introl Hl)).
    rewrite <- groupby_sum_total. symmetry. apply sumQ_perm, Permutation_map.
    now apply is_perm_b_sound.
Qed.

Lemma group_totals_partition_witness :
  data gap_loader = Some gap_frame /\
  is_perm_b (groupby_sum product_id sales_amount (rows gap_frame))
            (sort_desc_insertion (groupby_sum product_id sales_amount (rows gap_frame))) = true /\
  (forall l, fst (SA.get_product_preference sample_world sort_desc_insertion gap_loader) = Ok l ->
     (sumQ (map snd l) ==
      sum_skipna (map sales_amount
        (filter (fun r => match product_id r with Some _ => true | None => false end) (rows gap_frame))))%Q).
Proof.
  assert (H1 : data gap_loader = Some gap_frame) by reflexivity.
  assert (H2 : is_perm_b (groupby_sum product_id sales_amount (rows gap_frame))
            (sort_desc_insertion (groupby_sum product_id sales_amount (rows gap_frame))) = true)
    by (vm_compute; reflexivity).
  split; [exact H1|]. split; [exact H2|].
  exact (proj2 (group_totals_partition sample_world gap_loader gap_frame sort_desc_insertion H1 H2)).
Defined.

(** C2 counterexample: with one row lacking [product_id] and [date], both
    reports total 100 while the whole [sales_amount] column sums to 150. *)
Lemma group_totals_drop_missing_keys :
  fst (SA.get_weekly_sales sample_world gap_loader) = Ok [(1, 100%Q)] /\
  fst (SA.get_product_preference sample_world sort_desc_insertion gap_loader) = Ok [(101, 100%Q)] /\
  (sum_skipna (map sales_amount (rows gap_frame)) == 150)%Q /\
  ~ (sumQ [100%Q] == sum_skipna (map sales_amount (rows gap_frame)))%Q.
Proof.
  split; [vm_compute; reflexivity|]. split; [vm_compute; reflexivity|].
  split; [vm_compute; reflexivity|]. vm_compute. discriminate.
Qed.

Lemma group_keys_nodup (key : row -> option Z) (rs : list row) : NoDup (group_keys key rs).
Proof. apply strongly_sorted_nodup, group_keys_sorted. Qed.

(** C4 (amended): when the product columns exist, [get_product_preference]
    (both files) returns each product present exactly once with its summed
    [sales_amount], in descending order of that sum, for any [sort_values]
    that meets its documented contract on this input; which of several equal
    sums comes first is left to that sort. *)
Theorem product_preference_descending (w : world) (st : loader) (f : frame)
  (sv : list (Z * Q) -> list (Z * Q)) (Hdata : data st = Some f)
  (Hp : has_column f "product_id" = true) (Hs : has_column f "sales_amount" = true)
  (Hsv : sort_values_contract sv (groupby_sum product_id sales_amount (rows f)) = true) :
  exists out,
    fst (SA.get_product_preference w sv st) = Ok out /\
    fst (App.get_product_preference w sv st) = Ok out /\
    Sorted (fun a b => (snd b <= snd a)%Q) out /\
    NoDup (map fst out) /\
    (forall k, In k (map fst out) <-> exists r, In r (rows f) /\ product_id r = Some k) /\
    (forall k t, In (k, t) out -> t = sum_skipna (group_vals product_id sales_amount k (rows f))).
Proof.
  unfold sort_values_contract in Hsv. apply andb_prop in Hsv. destruct Hsv as [Hperm Hsort].
  apply is_perm_b_sound in Hperm. apply sorted_desc_b_sound in Hsort.
  exists (sv (groupby_sum product_id sales_amount (rows f))).
  assert (Hkeys : map fst (groupby_sum product_id sales_amount (rows f)) =
                  group_keys product_id (rows f))
    by (unfold groupby_sum; rewrite map_map; apply map_id).
  split; [|split; [|split; [exact Hsort|split; [|split]]]].
  - unfold SA.get_product_preference. run_cached Hdata. rewrite Hp, Hs. reflexivity.
  - unfold App.get_product_preference. run_cached Hdata. rewrite Hp, Hs. reflexivity.
  - apply (Permutation_NoDup (Permutation_map fst Hperm)). rewrite Hkeys. apply group_keys_nodup.
  - intro k. rewrite <- group_keys_In, <- Hkeys. split; apply Permutation_in.
    + now apply Permutation_sym, Permutation_map.
    + now apply Permutation_map.
  - intros k t Hin. apply (Permutation_in _ (Permutation_sym Hperm)) in Hin.
    unfold groupby_sum in Hin. apply in_map_iff in Hin. destruct Hin as [k' [He _]].
    inversion He; subst. reflexivity.
Qed.

Lemma product_preference_descending_witness :
  data loaded_sample = Some sample_loaded_frame /\
  has_column sample_loaded_frame "product_id" = true /\
  has_column sample_loaded_frame "sales_amount" = true /\
  sort_values_contract sort_desc_insertion
    (groupby_sum product_id sales_amount (rows sample_loaded_frame)) = true /\
  exists out,
    fst (SA.get_product_preference sample_world sort_desc_insertion loaded_sample) = Ok out /\
    Sorted (fun a b => (snd b <= snd a)%Q) out.
Proof.
  assert (H1 : data loaded_sample = Some sample_loaded_frame) by (vm_compute; reflexivity).
  assert (H2 : has_column sample_loaded_frame "product_id" = true) by (vm_compute; reflexivity).
  assert (H3 : has_column sample_loaded_frame "sales_amount" = true) by (vm_compute; reflexivity).
  assert (H4 : sort_values_contract sort_desc_insertion
    (groupby_sum product_id sales_amount (rows sample_loaded_frame)) = true)
    by (vm_compute; reflexivity).
  split; [exact H1|]. split; [exact H2|]. split; [exact H3|]. split; [exact H4|].
  destruct (product_preference_descending sample_world loaded_sample sample_loaded_frame
              sort_desc_insertion H1 H2 H3 H4) as (out & Ho & _ & Hsorted & _).
  exists out. split; assumption.
Defined.

(** C4 counterexample: eighteen products 101..118 with the same total.
    [groupby] lists them by ascending id; [sort_values(ascending=False)]
    runs pandas' [nargsort] over numpy's [argsort(kind='quicksort')], here
    its scalar introsort (the path numpy takes where no SIMD argsort is
    dispatched).  Eighteen entries exceed [SMALL_QUICKSORT], so one
    median-of-three partition runs before the insertion sorts.  With all
    values equal its scans stop at every entry: it swaps positions 1..7 of
    [tosort] with positions 15..9, and [argsort] returns
    [0, 15, 14, ..., 1, 16, 17].  Mapped back through [nargsort]'s two
    reversals, the report lists 101, 102, then 117 down to 103, then 118.  The result is a descending sort of the totals, yet 117
    comes before 103 although both have the total 100. *)
Lemma product_preference_tie_order_numpy :
  groupby_sum product_id sales_amount (rows tie_frame) =
    map (fun i => (101 + Z.of_nat i, 100%Q)) (seq 0 18) /\
  sort_values_contract numpy_sort_values_desc
    (groupby_sum product_id sales_amount (rows tie_frame)) = true /\
  fst (SA.get_product_preference sample_world numpy_sort_values_desc tie_loader) =
    Ok [
      (101, 100%Q); (102, 100%Q); (117, 100%Q); (116, 100%Q); (115, 100%Q); (114, 100%Q);
      (113, 100%Q); (112, 100%Q); (111, 100%Q); (110, 100%Q); (109, 100%Q); (108, 100%Q);
      (107, 100%Q); (106, 100%Q); (105, 100%Q); (104, 100%Q); (103, 100%Q); (118, 100%Q)] /\
  fst (App.get_product_preference sample_world numpy_sort_values_desc tie_loader) =
    Ok [
      (101, 100%Q); (102, 100%Q); (117, 100%Q); (116, 100%Q); (115, 100%Q); (114, 100%Q);
      (113, 100%Q); (112, 100%Q); (111, 100%Q); (110, 100%Q); (109, 100%Q); (108, 100%Q);
      (107, 100%Q); (106, 100%Q); (105, 100%Q); (104, 100%Q); (103, 100%Q); (118, 100%Q)].
Proof. split; [|split; [|split]]; vm_compute; reflexivity. Qed.

Lemma branch_id_text_invariant_witness :
  fst (SA.DataLoader_init sample_world "sales_data.csv" (mk_loader "" None)) = Ok tt /\
  exists f, data (snd (SA.DataLoader_init sample_world "sales_data.csv" (mk_loader "" None))) = Some f /\
            branch_text f = true.
Proof.
  assert (H : fst (SA.DataLoader_init sample_world "sales_data.csv" (mk_loader "" None)) = Ok tt)
    by (vm_compute; reflexivity).
  split; [exact H|].
  exact (proj1 (branch_id_text_invariant sample_world) "sales_data.csv" (mk_loader "" None) H).
Defined.

(** ** [describe] *)

Lemma somes_length (col : list (option Q)) : length (somes col) = length (filter present col).
Proof. induction col as [|[q|] t IH]; simpl; auto. Qed.

Lemma Q2R_sumQ (l : list Q) : Q2R (sumQ l) = sum_R (map Q2R l).
Proof.
  induction l as [|x l IH]; simpl.
  - unfold Q2R; simpl. field.
  - rewrite Q2R_plus, IH. reflexivity.
Qed.

Lemma Q2R_inject_Z (z : Z) : Q2R (inject_Z z) = IZR z.
Proof. unfold Q2R; simpl. field. Qed.

Lemma inject_Z_nonzero (z : Z) : z <> 0%Z -> ~ (inject_Z z == 0)%Q.
Proof. intros Hz H. apply Hz. unfold Qeq in H; simpl in H. lia. Qed.

Lemma describe_std_R (xs : list Q) :
  (2 <= length xs)%nat ->
  let n := length xs in
  let mean := (sumQ xs / inject_Z (Z.of_nat n))%Q in
  let ss := sumQ (map (fun x => (x - mean) * (x - mean))%Q xs) in
  sqrt (Q2R (ss / inject_Z (Z.of_nat n - 1))) = sample_std_R xs.
Proof.
  intros Hn n mean ss. unfold sample_std_R. f_equal.
  unfold ss. rewrite Q2R_div by (apply inject_Z_nonzero; subst n; lia).
  rewrite Q2R_inject_Z, minus_IZR, <- INR_IZR_INZ.
  replace (IZR 1) with 1%R by reflexivity. f_equal.
  assert (Hm : Q2R mean = (sum_R (map Q2R xs) / INR n)%R).
  { unfold mean. rewrite Q2R_div by (apply inject_Z_nonzero; subst n; lia).
    rewrite Q2R_sumQ, Q2R_inject_Z, <- INR_IZR_INZ. reflexivity. }
  assert (Hm' : Q2R mean = (sum_R (map Q2R xs) / INR (length xs))%R) by exact Hm.
  rewrite <- Hm'. clear Hm Hm' Hn ss. clearbody mean. clear n.
  induction xs as [|x xs IH]; simpl.
  - unfold Q2R; simpl. field.
  - rewrite Q2R_plus, IH, Q2R_mult, Q2R_minus. simpl. ring.
Qed.

Lemma describe_shape (col : list (option Q)) : describe_post col (describe col).
Proof.
  unfold describe_post, describe. cbn -[sqrt Q2R sample_std_R sort_Q quantile Nat.leb].
  rewrite <- somes_length. split; [reflexivity|]. split; [reflexivity|].
  destruct (Nat.leb 2 (length (somes col))) eqn:H2; [|reflexivity].
  apply Nat.leb_le in H2. do 3 f_equal. now apply describe_std_R.
Qed.

(** C3: on a non-empty frame with the [product_id], [price] and
    [sales_amount] columns, [get_product_price_analysis] gives, for each
    product, and [get_sales_distribution] gives, for the whole
    [sales_amount] column, exactly the eight statistics of [describe]:
    [count] is the number of rows contributing a value and [std] is the
    sample standard deviation (divided by [n - 1]). *)
Theorem describe_reports (w : world) (st : loader) (f : frame) (Hdata : data st = Some f)
  (Hne : (0 < length (rows f))%nat)
  (Hcols : has_column f "product_id" && has_column f "price" && has_column f "sales_amount" = true) :
  (exists out,
     fst (SA.get_product_price_analysis w st) = Ok out /\
     map fst out = group_keys product_id (rows f) /\
     forall k d, In (k, d) out -> describe_post (group_vals product_id price k (rows f)) d) /\
  (exists d,
     fst (SA.get_sales_distribution w st) = Ok d /\
     describe_post (map sales_amount (rows f)) d).
Proof.
  apply andb_prop in Hcols. destruct Hcols as [Hcols Hs]. apply andb_prop in Hcols.
  destruct Hcols as [Hp Hpr]. split.
  - exists (groupby_describe product_id price (rows f)). split; [|split].
    + unfold SA.get_product_price_analysis. run_cached Hdata. rewrite Hp, Hpr. reflexivity.
    + unfold groupby_describe. rewrite map_map. apply map_id.
    + intros k d Hin. unfold groupby_describe in Hin. apply in_map_iff in Hin.
      destruct Hin as [k' [He _]]. inversion He; subst. apply describe_shape.
  - exists (describe (map sales_amount (rows f))). split.
    + unfold SA.get_sales_distribution. run_cached Hdata. rewrite Hs. reflexivity.
    + apply describe_shape.
Qed.

Lemma describe_reports_witness :
  data loaded_sample = Some sample_loaded_frame /\
  (0 < length (rows sample_loaded_frame))%nat /\
  has_column sample_loaded_frame "product_id" && has_column sample_loaded_frame "price"
    && has_column sample_loaded_frame "sales_amount" = true /\
  exists d, fst (SA.get_sales_distribution sample_world loaded_sample) = Ok d /\
            describe_post (map sales_amount (rows sample_loaded_frame)) d.
Proof.
  assert (H1 : data loaded_sample = Some sample_loaded_frame) by (vm_compute; reflexivity).
  assert (H2 : (0 < length (rows sample_loaded_frame))%nat) by (vm_compute; lia).
  assert (H3 : has_column sample_loaded_frame "product_id" && has_column sample_loaded_frame "price"
    && has_column sample_loaded_frame "sales_amount" = true) by (vm_compute; reflexivity).
  split; [exact H1|]. split; [exact H2|]. split; [exact H3|].
  exact (proj2 (describe_reports sample_world loaded_sample sample_loaded_frame H1 H2 H3)).
Defined.

(** ** Loading *)

Ltac load_cases :=
  unfold SA.DataLoader_init, App.DataLoader_init, SA.load_data, App.load_data,
    try_except, bind, get, put, set_data, raise, read_fails_with, read_without_branch; simpl;
  destruct (path_exists _ _) eqn:Hex; simpl;
  [ destruct (read_csv _ _) as [f|e] eqn:Hrd; simpl;
    [ destruct (has_column f "branch_id") eqn:Hc; simpl
    | destruct e; simpl ]
  | ].

(** Closing the cases of [load_cases]. *)
Ltac pick :=
  first [ reflexivity
        | solve [eexists; split; reflexivity]
        | solve [eexists; reflexivity]
        | solve [eexists; split; [reflexivity | eassumption]]
        | solve [eexists; split; [reflexivity | split; eassumption]]
        | solve [eexists; split; [reflexivity | split; [eassumption | reflexivity]]]
        | solve [split; pick]
        | solve [left; pick]
        | solve [right; pick] ].

Ltac solve_load :=
  repeat match goal with
         | |- _ /\ _ => split
         | |- _ <-> _ => split
         | |- _ -> _ => intro
         | |- ~ _ => intro
         | H : _ /\ _ |- _ => destruct H
         | H : _ \/ _ |- _ => destruct H
         | H : exists _, _ |- _ => destruct H
         | H : Err _ = Err _ |- _ => injection H as H; subst
         | H : Ok _ = Ok _ |- _ => injection H as H; subst
         end;
  simpl in *; try discriminate; try congruence; try pick.

(** C5 (amended), [sales_analysis.py]: the constructor's load fails with
    [FileNotFoundError] exactly when the path does not exist (checked before
    reading) or the reader reports a missing file; with
    [ValueError("The file is empty.")] exactly when the reader reports empty
    content and with [ValueError("Error parsing the file.")] exactly when it
    reports unparseable content (and with no other [ValueError]); with
    [IOError] exactly for any other read fault or a table without
    [branch_id].  [app.py]: [FileNotFoundError] exactly when the path does
    not exist; every fault after that check, empty and malformed content
    included, is an [IOError].  In both files a failure before or during the
    read leaves no frame cached, while a table read without [branch_id] fails
    the load and stays cached: the loader holds it, and every later
    [get_data] returns it without reading the file again. *)
Theorem load_errors (w : world) (p : string) (st0 : loader) :
  (err_class (fst (SA.DataLoader_init w p st0)) = Some FileNotFoundErrorC <->
     path_exists w p = false \/ (path_exists w p = true /\ read_fails_with w p FileNotFoundErrorC)) /\
  (fst (SA.DataLoader_init w p st0) = Err (ValueError "The file is empty.") <->
     path_exists w p = true /\ read_fails_with w p EmptyDataErrorC) /\
  (fst (SA.DataLoader_init w p st0) = Err (ValueError "Error parsing the file.") <->
     path_exists w p = true /\ read_fails_with w p ParserErrorC) /\
  (err_class (fst (SA.DataLoader_init w p st0)) = Some ValueErrorC <->
     path_exists w p = true /\
     (read_fails_with w p EmptyDataErrorC \/ read_fails_with w p ParserErrorC)) /\
  (err_class (fst (SA.DataLoader_init w p st0)) = Some IOErrorC <->
     path_exists w p = true /\
     (read_fails_with w p ValueErrorC \/ read_fails_with w p KeyErrorC \/
      read_fails_with w p IOErrorC \/ read_fails_with w p TypeErrorC \/
      read_without_branch w p)) /\
  ((path_exists w p = false \/ exists e, read_csv w p = Err e) ->
     data (snd (SA.DataLoader_init w p st0)) = None) /\
  (forall f, path_exists w p = true -> read_csv w p = Ok f -> has_column f "branch_id" = false ->
     SA.DataLoader_init w p st0 =
       (Err (IOError ("An unexpected error occurred while reading the file " ++ p ++ ": 'branch_id'")),
        mk_loader p (Some f)) /\
     forall w', SA.get_data w' (mk_loader p (Some f)) = (Ok f, mk_loader p (Some f))) /\
  (err_class (fst (App.DataLoader_init w p st0)) = Some FileNotFoundErrorC <->
     path_exists w p = false) /\
  (err_class (fst (App.DataLoader_init w p st0)) = Some IOErrorC <->
     path_exists w p = true /\
     ((exists e, read_csv w p = Err e) \/ read_without_branch w p)) /\
  ((path_exists w p = false \/ exists e, read_csv w p = Err e) ->
     data (snd (App.DataLoader_init w p st0)) = None) /\
  (forall f, path_exists w p = true -> read_csv w p = Ok f -> has_column f "branch_id" = false ->
     App.DataLoader_init w p st0 =
       (Err (IOError ("An error occurred while reading the file " ++ p ++ ": 'branch_id'")),
        mk_loader p (Some f)) /\
     forall w', App.get_data w' (mk_loader p (Some f)) = (Ok f, mk_loader p (Some f))).
Proof.
  split; [load_cases; solve_load|]. split; [load_cases; solve_load|].
  split; [load_cases; solve_load|]. split; [load_cases; solve_load|].
  split; [load_cases; solve_load|]. split; [load_cases; solve_load|].
  split.
  { intros f Hex Hrd Hc. split; [|intro w'; apply SA_get_data_cached; reflexivity].
    unfold SA.DataLoader_init, SA.load_data, try_except, bind, get, put, set_data, raise; simpl.
    rewrite Hex, Hrd; simpl. rewrite Hc. reflexivity. }
  split; [load_cases; solve_load|]. split; [load_cases; solve_load|].
  split; [load_cases; solve_load|].
  intros f Hex Hrd Hc. split; [|intro w'; apply App_get_data_cached; reflexivity].
  unfold App.DataLoader_init, App.load_data, try_except, bind, get, put, set_data, raise; simpl.
  rewrite Hex, Hrd; simpl. rewrite Hc. reflexivity.
Qed.

(** C5 counterexample: in [sales_analysis.py] a table without [branch_id]
    fails the load with an [IOError] while the loader keeps the table it read;
    in [app.py] an empty file fails with [IOError], not a parse error. *)
Lemma load_failure_caches_table :
  SA.DataLoader_init (world_with (Ok nobranch_frame)) "sales_data.csv" (mk_loader "" None) =
    (Err (IOError "An unexpected error occurred while reading the file sales_data.csv: 'branch_id'"),
     mk_loader "sales_data.csv" (Some nobranch_frame)) /\
  fst (App.DataLoader_init (world_with (Err (EmptyDataError "No columns to parse from file")))
         "sales_data.csv" (mk_loader "" None)) =
    Err (IOError "An error occurred while reading the file sales_data.csv: No columns to parse from file").
Proof. split; vm_compute; reflexivity. Qed.

(** ** [sales_analysis.py] against [app.py] *)

Lemma get_data_agree (w : world) (st : loader) :
  snd (SA.get_data w st) = snd (App.get_data w st) /\
  (fst (SA.get_data w st) = fst (App.get_data w st) \/
   exists e1 e2, fst (SA.get_data w st) = Err e1 /\ fst (App.get_data w st) = Err e2).
Proof.
  unfold SA.get_data, App.get_data, SA.load_data, App.load_data, bind, get, try_except,
    set_data, raise, ret.
  destruct (data st) as [f|]; [split; [reflexivity | left; reflexivity]|]. simpl.
  destruct (path_exists w (file_path st)); simpl;
    [|split; [reflexivity | right; eexists; eexists; split; reflexivity]].
  destruct (read_csv w (file_path st)) as [f|e]; simpl;
    [|split; [reflexivity | right; eexists; eexists; split; reflexivity]].
  destruct (has_column f "branch_id"); simpl;
    split; first [reflexivity | left; reflexivity | right; eexists; eexists; split; reflexivity].
Qed.

Lemma wrap_bind_agree {A} (p : string) (m1 m2 : M frame) (k : frame -> M A) (st : loader) :
  snd (m1 st) = snd (m2 st) ->
  (fst (m1 st) = fst (m2 st) \/ exists e1 e2, fst (m1 st) = Err e1 /\ fst (m2 st) = Err e2) ->
  same_outcome (wrap_value_error p (bind m1 k) st) (wrap_value_error p (bind m2 k) st).
Proof.
  unfold wrap_value_error, bind, same_outcome.
  destruct (m1 st) as [r1 s1], (m2 st) as [r2 s2]; simpl. intros <- [<-|(e1 & e2 & -> & ->)].
  - destruct r1 as [a|e]; simpl.
    + destruct (k a s1) as [[x|e] s]; simpl; split; reflexivity.
    + split; reflexivity.
  - split; reflexivity.
Qed.

(** C9: for every loader state (a frame already loaded, or none and a file
    system to load from) and every argument, each method of [app.py]'s
    [SalesRepository] ends in the same loader state as its namesake in
    [sales_analysis.py] and returns the same value, or both raise a
    [ValueError] (the messages may quote different loader errors). *)
Theorem repositories_agree (w : world) (st : loader) (b : string)
  (sv : list (Z * Q) -> list (Z * Q)) :
  same_outcome (SA.get_monthly_sales w b st) (App.get_monthly_sales w b st) /\
  same_outcome (SA.get_product_price_analysis w st) (App.get_product_price_analysis w st) /\
  same_outcome (SA.get_weekly_sales w st) (App.get_weekly_sales w st) /\
  same_outcome (SA.get_product_preference w sv st) (App.get_product_preference w sv st) /\
  same_outcome (SA.get_sales_distribution w st) (App.get_sales_distribution w st).
Proof.
  destruct (get_data_agree w st) as [Hs Hr].
  unfold SA.get_monthly_sales, App.get_monthly_sales, SA.get_product_price_analysis,
    App.get_product_price_analysis, SA.get_weekly_sales, App.get_weekly_sales,
    SA.get_product_preference, App.get_product_preference,
    SA.get_sales_distribution, App.get_sales_distribution.
  repeat split; apply wrap_bind_agree; assumption.
Qed.

(** ** The factory *)

Lemma unknown_report_neq (name : string) :
  unknown_report name = true ->
  String.eqb name "monthly_sales" = false /\ String.eqb name "price" = false /\
  String.eqb name "weekly_sales" = false /\ String.eqb name "product_preference" = false /\
  String.eqb name "sales_distribution" = false.
Proof.
  unfold unknown_report, report_names. simpl.
  destruct (String.eqb name "monthly_sales"), (String.eqb name "price"),
    (String.eqb name "weekly_sales"), (String.eqb name "product_preference"),
    (String.eqb name "sales_distribution"); simpl; intro H; try discriminate H; auto.
Qed.

(** C10: in both files, [create_analysis('monthly_sales', repo)] with no
    [branch_id] keyword raises [KeyError('branch_id')], which is neither a
    [ValueError] (the unknown-report error) nor a [FileNotFoundError]; each of
    the four other names yields its strategy whatever the keywords; and a name
    outside the five raises [ValueError("Unknown analysis type")]. *)
Theorem factory_dispatch (kw : list (string * string)) (name : string)
  (Hkw : SA.kw_lookup "branch_id" kw = None) (Hname : unknown_report name = true) :
  (SA.create_analysis "monthly_sales" kw = Err (key_error "branch_id") /\
   App.create_analysis "monthly_sales" kw = Err (key_error "branch_id") /\
   exn_class_of (key_error "branch_id") = KeyErrorC /\
   exn_class_of (key_error "branch_id") <> ValueErrorC /\
   exn_class_of (key_error "branch_id") <> FileNotFoundErrorC) /\
  (SA.create_analysis "price" kw = Ok SA.PriceAnalysis /\
   SA.create_analysis "weekly_sales" kw = Ok SA.WeeklySalesAnalysis /\
   SA.create_analysis "product_preference" kw = Ok SA.ProductPreferenceAnalysis /\
   SA.create_analysis "sales_distribution" kw = Ok SA.SalesDistributionAnalysis) /\
  (App.create_analysis "price" kw = Ok App.PriceAnalysis /\
   App.create_analysis "weekly_sales" kw = Ok App.WeeklySalesAnalysis /\
   App.create_analysis "product_preference" kw = Ok App.ProductPreferenceAnalysis /\
   App.create_analysis "sales_distribution" kw = Ok App.SalesDistributionAnalysis) /\
  SA.create_analysis name kw = Err (ValueError "Unknown analysis type") /\
  App.create_analysis name kw = Err (ValueError "Unknown analysis type").
Proof.
  assert (Hkw' : App.kw_lookup "branch_id" kw = None) by exact Hkw.
  destruct (unknown_report_neq name Hname) as (H1 & H2 & H3 & H4 & H5).
  unfold SA.create_analysis, App.create_analysis.
  rewrite Hkw, Hkw', H1, H2, H3, H4, H5. simpl.
  repeat split; discriminate.
Qed.

Lemma factory_dispatch_witness :
  SA.kw_lookup "branch_id" [("month", "3")] = None /\ unknown_report "yearly_sales" = true /\
  SA.create_analysis "yearly_sales" [("month", "3")] = Err (ValueError "Unknown analysis type").
Proof.
  split; [reflexivity|]. split; [reflexivity|].
  apply (factory_dispatch [("month", "3")] "yearly_sales"); reflexivity.
Defined.

(** * Further properties of the code *)

Lemma wrap_value_error_err {A} (p : string) (m : M A) (st st' : loader) (e : exn) :
  wrap_value_error p m st = (Err e, st') -> exists msg, e = ValueError (p ++ msg).
Proof.
  unfold wrap_value_error. destruct (m st) as [[a|e0] s]; intro H; inversion H; eauto.
Qed.

Lemma fmap_M_err {A B} (g : A -> B) (m : M A) (st st' : loader) (e : exn) :
  fmap_M g m st = (Err e, st') -> m st = (Err e, st').
Proof.
  unfold fmap_M, bind, ret. destruct (m st) as [[a|e0] s]; intro H; inversion H; reflexivity.
Qed.

Lemma SA_analyze_err w sv a st st' e :
  SAMain.analyze w sv a st = (Err e, st') -> is_value_error e = true.
Proof.
  destruct a; simpl; intro H; apply fmap_M_err in H;
    apply wrap_value_error_err in H; destruct H as [? ->]; reflexivity.
Qed.

Lemma SA_init_caught w p st st' e :
  SA.DataLoader_init w p st = (Err e, st') -> SAMain.init_caught e = true.
Proof.
  unfold SA.DataLoader_init, SA.load_data, bind, put, get, try_except, raise, set_data.
  simpl. destruct (path_exists w p); simpl; [|intro H; inversion H; reflexivity].
  destruct (read_csv w p) as [f|e0]; simpl.
  - destruct (has_column f "branch_id"); simpl; intro H; inversion H; reflexivity.
  - destruct e0; simpl; intro H; inversion H; reflexivity.
Qed.

Lemma no_unexpected_app l1 l2 : no_unexpected l1 -> no_unexpected l2 -> no_unexpected (l1 ++ l2).
Proof. unfold no_unexpected. intros H1 H2 s Hs. apply in_app_or in Hs. destruct Hs; auto. Qed.

Lemma menu_ok windows : no_unexpected (SAMain.menu windows).
Proof.
  unfold no_unexpected, SAMain.menu. intros s Hs. simpl in Hs.
  repeat (destruct Hs as [Hs|Hs]; [first [discriminate Hs | inversion Hs; subst; reflexivity]|]);
    contradiction.
Qed.

Lemma prepend_ok evs t : no_unexpected evs -> iter_ok t -> iter_ok (prepend evs t).
Proof.
  destruct t as [[ev n] st]. simpl. intros H [H1 H2]. split; [apply no_unexpected_app|]; auto.
Qed.

Lemma show_result_ok w sv a st :
  no_unexpected (SAMain.show_result (fst (SAMain.analyze w sv a st))).
Proof.
  destruct (SAMain.analyze w sv a st) as [[v|e] st'] eqn:Ha; simpl.
  - intros s [H|[H|[]]]; inversion H; reflexivity.
  - rewrite (SA_analyze_err w sv a st st' e Ha). intros s [H|[]]. inversion H. reflexivity.
Qed.

Lemma run_analysis_ok w windows sv a ins st :
  iter_ok (SAMain.run_analysis w windows sv (Ok a) ins st).
Proof.
  pose proof (show_result_ok w sv a st) as Hs.
  unfold SAMain.run_analysis. destruct (SAMain.analyze w sv a st) as [r st'].
  simpl in Hs. destruct ins as [|x ins']; simpl; (split; [apply no_unexpected_app; [exact Hs|]|discriminate]).
  - intros s [H|[]]; discriminate.
  - intros s [H|[H|[]]]; discriminate.
Qed.

Lemma create_monthly b :
  SA.create_analysis "monthly_sales" [("branch_id", b)] = Ok (SA.MonthlySalesAnalysis b).
Proof. reflexivity. Qed.

Lemma iteration_ok w windows sv ins st : iter_ok (SAMain.iteration w windows sv ins st).
Proof.
  assert (Hm := menu_ok windows).
  unfold SAMain.iteration.
  destruct ins as [|c ins1]; [split; [exact Hm | discriminate]|].
  destruct (String.eqb c "0"); [split; [exact Hm | discriminate]|].
  destruct (String.eqb c "1").
  { destruct ins1 as [|b ins2].
    - split; [apply no_unexpected_app; [exact Hm|] | discriminate].
      intros s [H|[]]; discriminate.
    - rewrite create_monthly. apply prepend_ok; [|apply run_analysis_ok].
      apply no_unexpected_app; [exact Hm|]. intros s [H|[]]; discriminate. }
  destruct (String.eqb c "2"); [apply prepend_ok; [exact Hm | apply run_analysis_ok]|].
  destruct (String.eqb c "3"); [apply prepend_ok; [exact Hm | apply run_analysis_ok]|].
  destruct (String.eqb c "4"); [apply prepend_ok; [exact Hm | apply run_analysis_ok]|].
  destruct (String.eqb c "5"); [apply prepend_ok; [exact Hm | apply run_analysis_ok]|].
  destruct ins1 as [|x ins2]; (split; [apply no_unexpected_app; [exact Hm|] | discriminate]);
    intros s [H|[H|[]]]; inversion H; reflexivity.
Qed.

Lemma main_loop_ok w windows sv n ins st :
  match SAMain.main_loop w windows sv n ins st with
  | (ev, e, _) => no_unexpected ev /\ (e = Returned \/ e = EOFError)
  end.
Proof.
  revert ins st. induction n as [|n IH]; intros ins st; simpl.
  - split; [intros s []| right; reflexivity].
  - pose proof (iteration_ok w windows sv ins st) as Hi.
    destruct (SAMain.iteration w windows sv ins st) as [[ev [ins'|e]] st']; simpl in Hi;
      destruct Hi as [Hev Hn].
    + specialize (IH ins' st'). destruct (SAMain.main_loop w windows sv n ins' st') as [[ev' e] st''].
      destruct IH as [IH1 IH2]. split; [apply no_unexpected_app|]; auto.
    + split; [exact Hev|]. destruct e; auto. exfalso; exact (Hn e eq_refl).
Qed.

(** The command line [main] of [sales_analysis.py] ends by returning
    (option 0, or an initialization error it reports) or by the [EOFError] of
    [input] once the input is exhausted; no other exception escapes it.  It
    never prints ["An unexpected error occurred: ..."]: every report wraps its
    errors in a [ValueError], which the [except ValueError] clause catches. *)
Theorem main_never_unexpected w windows sv ins st :
  match SAMain.main w windows sv ins st with
  | (ev, e, _) => (e = Returned \/ e = EOFError) /\
      forall s, In (Print s) ev -> String.prefix "An unexpected error occurred: " s = false
  end.
Proof.
  unfold SAMain.main.
  destruct (SA.DataLoader_init w "sales_data.csv" st) as [[u|e] st1] eqn:Hi.
  - pose proof (main_loop_ok w windows sv (Datatypes.S (length ins)) ins st1) as H.
    destruct (SAMain.main_loop _ _ _ _ _ _) as [[ev e] st']. destruct H; split; auto.
  - rewrite (SA_init_caught w _ st st1 e Hi). split; [left; reflexivity|].
    intros s [H|[]]. inversion H. reflexivity.
Qed.

Lemma run_method {A} w windows sv (a : SA.analysis) (g : A -> report) (p : string) (m : M A)
  (x : string) (rest : list string) (st : loader) :
  SAMain.analyze w sv a = fmap_M g (wrap_value_error p m) ->
  SAMain.run_analysis w windows sv (Ok a) (x :: rest) st =
  (reported g (fst (wrap_value_error p m st)) ++
     [Prompt "Press Enter to continue..."; SAMain.clear_screen windows],
   Continue rest, snd (wrap_value_error p m st))%list.
Proof.
  intro Ha. unfold SAMain.run_analysis. rewrite Ha.
  destruct (wrap_value_error p m st) as [[v|e] st'] eqn:Hw; unfold fmap_M, bind, ret; rewrite Hw.
  - reflexivity.
  - simpl. destruct (wrap_value_error_err p m st st' e Hw) as [msg ->]. reflexivity.
Qed.

(** One round of the command line for menu choices 1 to 5: after the menu
    (and, for choice 1, the branch prompt), the chosen report runs on the
    loader; its result is printed after ["Result:"], or its error after
    ["Value error: "]; then the pause prompt and a screen clear follow, and
    the loop continues with the input after the line read by the pause. *)
Theorem cli_choice_runs_report w windows sv (st : loader) (x : string) (rest : list string) :
  (forall b, SAMain.iteration w windows sv ("1" :: b :: x :: rest) st =
     (SAMain.menu windows ++ Prompt "Enter branch ID: " ::
        reported DataFrameRows (fst (SA.get_monthly_sales w b st)) ++
        [Prompt "Press Enter to continue..."; SAMain.clear_screen windows],
      Continue rest, snd (SA.get_monthly_sales w b st))%list) /\
  SAMain.iteration w windows sv ("2" :: x :: rest) st =
     (SAMain.menu windows ++
        reported DataFrameStats (fst (SA.get_product_price_analysis w st)) ++
        [Prompt "Press Enter to continue..."; SAMain.clear_screen windows],
      Continue rest, snd (SA.get_product_price_analysis w st))%list /\
  SAMain.iteration w windows sv ("3" :: x :: rest) st =
     (SAMain.menu windows ++
        reported SeriesTotals (fst (SA.get_weekly_sales w st)) ++
        [Prompt "Press Enter to continue..."; SAMain.clear_screen windows],
      Continue rest, snd (SA.get_weekly_sales w st))%list /\
  SAMain.iteration w windows sv ("4" :: x :: rest) st =
     (SAMain.menu windows ++
        reported SeriesTotals (fst (SA.get_product_preference w sv st)) ++
        [Prompt "Press Enter to continue..."; SAMain.clear_screen windows],
      Continue rest, snd (SA.get_product_preference w sv st))%list /\
  SAMain.iteration w windows sv ("5" :: x :: rest) st =
     (SAMain.menu windows ++
        reported SeriesStats (fst (SA.get_sales_distribution w st)) ++
        [Prompt "Press Enter to continue..."; SAMain.clear_screen windows],
      Continue rest, snd (SA.get_sales_distribution w st))%list.
Proof.
  repeat split; [intro b|..]; unfold SAMain.iteration; simpl String.eqb; cbv iota;
    [rewrite create_monthly|..];
    change (SA.create_analysis "price" []) with (Ok (A := SA.analysis) SA.PriceAnalysis);
    change (SA.create_analysis "weekly_sales" []) with (Ok (A := SA.analysis) SA.WeeklySalesAnalysis);
    change (SA.create_analysis "product_preference" [])
      with (Ok (A := SA.analysis) SA.ProductPreferenceAnalysis);
    change (SA.create_analysis "sales_distribution" [])
      with (Ok (A := SA.analysis) SA.SalesDistributionAnalysis);
    (erewrite run_method; [|reflexivity]);
    rewrite <- ?app_assoc; reflexivity.
Qed.

(** When creating the [DataLoader] fails, [main] prints
    ["Initialization error: "] followed by the error's message and returns
    without showing the menu or reading any input. *)
Theorem main_init_failure w windows sv (ins : list string) (st st1 : loader) (e : exn) :
  SA.DataLoader_init w "sales_data.csv" st = (Err e, st1) ->
  SAMain.main w windows sv ins st = ([Print ("Initialization error: " ++ exn_str e)], Returned, st1).
Proof.
  intro H. unfold SAMain.main. rewrite H, (SA_init_caught w _ st st1 e H). reflexivity.
Qed.

Lemma main_init_failure_witness :
  SA.DataLoader_init missing_world "sales_data.csv" (mk_loader "" None) =
    (Err (FileNotFoundError "The file sales_data.csv does not exist."),
     mk_loader "sales_data.csv" None) /\
  SAMain.main missing_world false (@rev _) ["1"; "1"] (mk_loader "" None) =
    ([Print "Initialization error: The file sales_data.csv does not exist."], Returned,
     mk_loader "sales_data.csv" None).
Proof.
  split; [reflexivity|].
  apply (main_init_failure missing_world false (@rev _) ["1"; "1"] (mk_loader "" None)
    (mk_loader "sales_data.csv" None) (FileNotFoundError "The file sales_data.csv does not exist."));
  reflexivity.
Defined.

Lemma run_analysis_consumes w windows sv created ins st ev ins' st' :
  SAMain.run_analysis w windows sv created ins st = (ev, Continue ins', st') ->
  (length ins' < length ins)%nat.
Proof.
  unfold SAMain.run_analysis. destruct created as [a|e]; [|discriminate].
  destruct (SAMain.analyze w sv a st) as [r s]. destruct ins as [|y l]; [discriminate|].
  intro H. inversion H. simpl. lia.
Qed.

Lemma prepend_continue evs t ev ins' st' :
  prepend evs t = (ev, Continue ins', st') -> exists ev0, t = (ev0, Continue ins', st').
Proof. destruct t as [[ev0 n] s]. simpl. intro H. inversion H. eauto. Qed.

Lemma iteration_consumes w windows sv ins st ev ins' st' :
  SAMain.iteration w windows sv ins st = (ev, Continue ins', st') -> (length ins' < length ins)%nat.
Proof.
  unfold SAMain.iteration.
  destruct ins as [|c ins1]; [discriminate|].
  repeat match goal with
         | |- context [String.eqb c ?b] => destruct (String.eqb c b)
         end;
    try (destruct ins1 as [|y ins2]);
    intro H;
    try (apply prepend_continue in H; destruct H as [ev0 H]; apply run_analysis_consumes in H);
    try discriminate; try (inversion H; subst); simpl in *; lia.
Qed.

Lemma main_loop_S w windows sv (n : nat) (ins : list string) (st : loader) :
  SAMain.main_loop w windows sv (Datatypes.S n) ins st =
  match SAMain.iteration w windows sv ins st with
  | (ev, Stop e, st') => (ev, e, st')
  | (ev, Continue ins', st') =>
      match SAMain.main_loop w windows sv n ins' st' with
      | (ev', e, st'') => ((ev ++ ev')%list, e, st'')
      end
  end.
Proof. reflexivity. Qed.

Lemma main_loop_fuel w windows sv (n : nat) (ins : list string) (st : loader) :
  (length ins < n)%nat ->
  SAMain.main_loop w windows sv (Datatypes.S n) ins st = SAMain.main_loop w windows sv n ins st.
Proof.
  revert ins st. induction n as [|n IH]; intros ins st Hn; [lia|].
  rewrite main_loop_S. symmetry. rewrite main_loop_S. symmetry.
  destruct (SAMain.iteration w windows sv ins st) as [[ev [ins'|e]] st'] eqn:Hi; [|reflexivity].
  apply iteration_consumes in Hi. rewrite IH by lia. reflexivity.
Qed.

Lemma App_create_unknown t :
  unknown_report t = true -> App.create_analysis t [] = Err (ValueError "Unknown analysis type").
Proof.
  intro H. destruct (unknown_report_neq t H) as (H1 & H2 & H3 & H4 & H5).
  unfold App.create_analysis. rewrite H1, H2, H3, H4, H5. reflexivity.
Qed.

(** The [index] route of [app.py]: a GET renders the page with no error,
    no result and no analysis type; a POST without an [analysis_type] field
    is a 400 Bad Request; a POST with an analysis type that is not one of the
    five renders ["Unknown analysis type"].  None of these touches the loader. *)
Theorem index_leaves_loader w sv (form : list (string * string)) (st : loader) (t : string) :
  AppWeb.index w sv AppWeb.GET form st = (AppWeb.Render (AppWeb.mk_page None None None), st) /\
  (App.kw_lookup "analysis_type" form = None ->
   AppWeb.index w sv AppWeb.POST form st = (AppWeb.BadRequest, st)) /\
  (App.kw_lookup "analysis_type" form = Some t -> unknown_report t = true ->
   AppWeb.index w sv AppWeb.POST form st =
     (AppWeb.Render (AppWeb.mk_page (Some "Unknown analysis type") None (Some t)), st)).
Proof.
  split; [reflexivity|]. split.
  - intro H. unfold AppWeb.index. rewrite H. reflexivity.
  - intros H Hu. unfold AppWeb.index, AppWeb.run_report. rewrite H.
    destruct (unknown_report_neq t Hu) as (H1 & _).
    rewrite H1, (App_create_unknown t Hu). reflexivity.
Qed.

Lemma index_leaves_loader_witness :
  App.kw_lookup "analysis_type" [("analysis_type", "yearly")] = Some "yearly" /\
  unknown_report "yearly" = true /\
  AppWeb.index missing_world (@rev _) AppWeb.POST [("analysis_type", "yearly")] (mk_loader "sales_data.csv" None) =
    (AppWeb.Render (AppWeb.mk_page (Some "Unknown analysis type") None (Some "yearly")),
     mk_loader "sales_data.csv" None).
Proof.
  split; [reflexivity|]. split; [reflexivity|].
  apply (index_leaves_loader missing_world (@rev _) [("analysis_type", "yearly")]
    (mk_loader "sales_data.csv" None) "yearly"); reflexivity.
Defined.

Lemma index_series_page {A} w sv form st (t : string) (g : A -> report) (m : M A) :
  App.kw_lookup "analysis_type" form = Some t ->
  AppWeb.run_report w sv t (App.kw_lookup "branch_id" form) = fmap_M g m ->
  (forall v, AppWeb.to_html (g v) = None) ->
  AppWeb.index w sv AppWeb.POST form st =
    (AppWeb.Render (AppWeb.mk_page
       (Some (match fst (m st) with Ok _ => AppWeb.attribute_error_msg | Err e => exn_str e end))
       None (Some t)), snd (m st)).
Proof.
  intros Ht Hr Hg. unfold AppWeb.index. rewrite Ht, Hr. unfold fmap_M, bind, ret.
  destruct (m st) as [[v|e] s]; simpl; [rewrite Hg|]; reflexivity.
Qed.

(** The [index] route for the weekly, product preference and sales
    distribution reports: these return a pandas Series, which has no
    [to_html], so the page shows the [AttributeError] message when the query
    succeeds, and the query's error message when it fails; never a result. *)
Theorem index_series_reports_fail w sv (form : list (string * string)) (st : loader) :
  (App.kw_lookup "analysis_type" form = Some "weekly_sales" ->
   AppWeb.index w sv AppWeb.POST form st =
     (AppWeb.Render (AppWeb.mk_page
        (Some (match fst (App.get_weekly_sales w st) with
               | Ok _ => AppWeb.attribute_error_msg | Err e => exn_str e end))
        None (Some "weekly_sales")), snd (App.get_weekly_sales w st))) /\
  (App.kw_lookup "analysis_type" form = Some "product_preference" ->
   AppWeb.index w sv AppWeb.POST form st =
     (AppWeb.Render (AppWeb.mk_page
        (Some (match fst (App.get_product_preference w sv st) with
               | Ok _ => AppWeb.attribute_error_msg | Err e => exn_str e end))
        None (Some "product_preference")), snd (App.get_product_preference w sv st))) /\
  (App.kw_lookup "analysis_type" form = Some "sales_distribution" ->
   AppWeb.index w sv AppWeb.POST form st =
     (AppWeb.Render (AppWeb.mk_page
        (Some (match fst (App.get_sales_distribution w st) with
               | Ok _ => AppWeb.attribute_error_msg | Err e => exn_str e end))
        None (Some "sales_distribution")), snd (App.get_sales_distribution w st))).
Proof.
  repeat split; intro H; (eapply index_series_page; [exact H | reflexivity | reflexivity]).
Qed.

Lemma index_series_reports_fail_witness :
  App.kw_lookup "analysis_type" [("analysis_type", "weekly_sales")] = Some "weekly_sales" /\
  fst (AppWeb.index sample_world (@rev _) AppWeb.POST [("analysis_type", "weekly_sales")]
         loaded_sample) =
    AppWeb.Render (AppWeb.mk_page (Some "'Series' object has no attribute 'to_html'") None
                     (Some "weekly_sales")).
Proof.
  split; [reflexivity|].
  rewrite (proj1 (index_series_reports_fail sample_world (@rev _)
                    [("analysis_type", "weekly_sales")] loaded_sample) eq_refl).
  vm_compute. reflexivity.
Defined.

Lemma index_frame_page {A} w sv form st (t : string) (g : A -> report) (m : M A) :
  App.kw_lookup "analysis_type" form = Some t ->
  AppWeb.run_report w sv t (App.kw_lookup "branch_id" form) = fmap_M g m ->
  (forall v, AppWeb.to_html (g v) = Some (AppWeb.FrameHtml (g v))) ->
  AppWeb.index w sv AppWeb.POST form st =
    (AppWeb.Render (match fst (m st) with
                    | Ok v => AppWeb.mk_page None (Some (AppWeb.FrameHtml (g v))) (Some t)
                    | Err e => AppWeb.mk_page (Some (exn_str e)) None (Some t)
                    end), snd (m st)).
Proof.
  intros Ht Hr Hg. unfold AppWeb.index. rewrite Ht, Hr. unfold fmap_M, bind, ret.
  destruct (m st) as [[v|e] s]; simpl; [rewrite Hg|]; reflexivity.
Qed.

(** The [index] route for the price report and for the monthly report with
    a [branch_id] field: when the query succeeds the page shows its DataFrame
    as HTML and no error, otherwise it shows the query's error message. *)
Theorem index_frame_reports w sv (form : list (string * string)) (st : loader) (b : string) :
  (App.kw_lookup "analysis_type" form = Some "price" ->
   AppWeb.index w sv AppWeb.POST form st =
     (AppWeb.Render (match fst (App.get_product_price_analysis w st) with
        | Ok v => AppWeb.mk_page None (Some (AppWeb.FrameHtml (DataFrameStats v))) (Some "price")
        | Err e => AppWeb.mk_page (Some (exn_str e)) None (Some "price")
        end), snd (App.get_product_price_analysis w st))) /\
  (App.kw_lookup "analysis_type" form = Some "monthly_sales" ->
   App.kw_lookup "branch_id" form = Some b ->
   AppWeb.index w sv AppWeb.POST form st =
     (AppWeb.Render (match fst (App.get_monthly_sales w b st) with
        | Ok v => AppWeb.mk_page None (Some (AppWeb.FrameHtml (DataFrameRows v))) (Some "monthly_sales")
        | Err e => AppWeb.mk_page (Some (exn_str e)) None (Some "monthly_sales")
        end), snd (App.get_monthly_sales w b st))).
Proof.
  split.
  - intro H. eapply index_frame_page; [exact H | reflexivity | reflexivity].
  - intros H Hb. eapply index_frame_page; [exact H | | reflexivity].
    unfold AppWeb.run_report. rewrite Hb. reflexivity.
Qed.

Lemma index_frame_reports_witness :
  App.kw_lookup "analysis_type" [("analysis_type", "monthly_sales"); ("branch_id", "7")] =
    Some "monthly_sales" /\
  App.kw_lookup "branch_id" [("analysis_type", "monthly_sales"); ("branch_id", "7")] = Some "7" /\
  fst (AppWeb.index sample_world (@rev _) AppWeb.POST
         [("analysis_type", "monthly_sales"); ("branch_id", "7")] loaded_sample) =
    AppWeb.Render (AppWeb.mk_page
      (Some "Error fetching monthly sales data: No data found for branch ID: 7") None
      (Some "monthly_sales")).
Proof.
  split; [reflexivity|]. split; [reflexivity|].
  rewrite (proj2 (index_frame_reports sample_world (@rev _)
                    [("analysis_type", "monthly_sales"); ("branch_id", "7")] loaded_sample "7")
             eq_refl eq_refl).
  vm_compute. reflexivity.
Defined.

Lemma filter_false {A} (l : list A) : filter (fun _ => false) l = [].
Proof. induction l; auto. Qed.

Lemma fmap_M_run {A B} (g : A -> B) (m : M A) (st : loader) :
  fmap_M g m st = match m st with (Ok v, s) => (Ok (g v), s) | (Err e, s) => (Err e, s) end.
Proof. unfold fmap_M, bind, ret. destruct (m st) as [[v|e] s]; reflexivity. Qed.

Lemma get_monthly_sales_None_run w st :
  AppWeb.get_monthly_sales_None w st =
  match App.get_data w st with
  | (Ok f, s) =>
      if has_column f "branch_id"
      then (Err (ValueError "Error fetching monthly sales data: No data found for branch ID: None"), s)
      else (Err (ValueError "Error fetching monthly sales data: 'branch_id'"), s)
  | (Err e, s) => (Err (ValueError ("Error fetching monthly sales data: " ++ exn_str e)), s)
  end.
Proof.
  unfold AppWeb.get_monthly_sales_None, wrap_value_error, bind, ret, raise.
  destruct (App.get_data w st) as [[f|e] s]; [|reflexivity].
  rewrite filter_false. destruct (has_column f "branch_id"); reflexivity.
Qed.

(** The [index] route for [monthly_sales] when the form has no [branch_id]
    field: [branch_id] is [None], so the page never shows a result but always
    an error; once the data is loaded with a [branch_id] column the error is
    ["Error fetching monthly sales data: No data found for branch ID: None"]. *)
Theorem index_monthly_without_branch w sv (form : list (string * string)) (st st' : loader) (f : frame) :
  App.kw_lookup "analysis_type" form = Some "monthly_sales" ->
  App.kw_lookup "branch_id" form = None ->
  (match fst (AppWeb.index w sv AppWeb.POST form st) with
   | AppWeb.Render p => AppWeb.page_result p = None /\ AppWeb.page_error p <> None
   | AppWeb.BadRequest => False
   end) /\
  (App.get_data w st = (Ok f, st') -> has_column f "branch_id" = true ->
   AppWeb.index w sv AppWeb.POST form st =
     (AppWeb.Render (AppWeb.mk_page
        (Some "Error fetching monthly sales data: No data found for branch ID: None") None
        (Some "monthly_sales")), st')).
Proof.
  intros Ht Hb. unfold AppWeb.index, AppWeb.run_report. rewrite Ht, Hb.
  rewrite String.eqb_refl, fmap_M_run, get_monthly_sales_None_run.
  split.
  - destruct (App.get_data w st) as [[g|e] s]; [destruct (has_column g "branch_id")|];
      simpl; (split; [reflexivity | discriminate]).
  - intros Hg Hc. rewrite Hg, Hc. reflexivity.
Qed.

Lemma index_monthly_without_branch_witness :
  App.kw_lookup "analysis_type" [("analysis_type", "monthly_sales")] = Some "monthly_sales" /\
  App.kw_lookup "branch_id" [("analysis_type", "monthly_sales")] = None /\
  App.get_data sample_world loaded_sample = (Ok sample_loaded_frame, loaded_sample) /\
  has_column sample_loaded_frame "branch_id" = true /\
  AppWeb.index sample_world (@rev _) AppWeb.POST [("analysis_type", "monthly_sales")] loaded_sample =
    (AppWeb.Render (AppWeb.mk_page
       (Some "Error fetching monthly sales data: No data found for branch ID: None") None
       (Some "monthly_sales")), loaded_sample).
Proof.
  assert (H1 : App.kw_lookup "analysis_type" [("analysis_type", "monthly_sales")] = Some "monthly_sales")
    by reflexivity.
  assert (H2 : App.kw_lookup "branch_id" [("analysis_type", "monthly_sales")] = None) by reflexivity.
  assert (H3 : App.get_data sample_world loaded_sample = (Ok sample_loaded_frame, loaded_sample))
    by (vm_compute; reflexivity).
  assert (H4 : has_column sample_loaded_frame "branch_id" = true) by (vm_compute; reflexivity).
  split; [exact H1|]. split; [exact H2|]. split; [exact H3|]. split; [exact H4|].
  exact (proj2 (index_monthly_without_branch sample_world (@rev _) _ loaded_sample loaded_sample
                  sample_loaded_frame H1 H2) H3 H4).
Defined.

Lemma SA_load_data_ok w st u st' :
  SA.load_data w st = (Ok u, st') -> exists f, data st' = Some f /\ has_column f "branch_id" = true.
Proof.
  unfold SA.load_data, bind, get, try_except, raise, set_data. simpl.
  destruct (path_exists w (file_path st)); simpl; [|intro H; discriminate H].
  destruct (read_csv w (file_path st)) as [f|e]; simpl; [|intro H; discriminate H].
  destruct (has_column f "branch_id") eqn:Hc; simpl; [|intro H; discriminate H].
  intro H. inversion H. subst. exists (astype_branch_str f). split; [reflexivity|]. exact Hc.
Qed.

Lemma App_load_data_ok w st u st' :
  App.load_data w st = (Ok u, st') -> exists f, data st' = Some f /\ has_column f "branch_id" = true.
Proof.
  unfold App.load_data, bind, get, try_except, raise, set_data. simpl.
  destruct (path_exists w (file_path st)); simpl; [|intro H; discriminate H].
  destruct (read_csv w (file_path st)) as [f|e]; simpl; [|intro H; discriminate H].
  destruct (has_column f "branch_id") eqn:Hc; simpl; [|intro H; discriminate H].
  intro H. inversion H. subst. exists (astype_branch_str f). split; [reflexivity|]. exact Hc.
Qed.

Lemma get_data_cases w (st : loader) :
  match SA.get_data w st with
  | (Ok f, st') => (data st = Some f /\ st' = st) \/
                   (data st = None /\ SA.load_data w st = (Ok tt, st') /\ data st' = Some f)
  | (Err e, st') => data st = None /\ SA.load_data w st = (Err e, st')
  end /\
  match App.get_data w st with
  | (Ok f, st') => (data st = Some f /\ st' = st) \/
                   (data st = None /\ App.load_data w st = (Ok tt, st') /\ data st' = Some f)
  | (Err e, st') => data st = None /\ App.load_data w st = (Err e, st')
  end.
Proof.
  unfold SA.get_data, App.get_data, bind, get, ret, raise. cbn beta iota zeta.
  destruct (data st) as [f|] eqn:Hd; [split; left; split; reflexivity|].
  split.
  - destruct (SA.load_data w st) as [[[]|e] s] eqn:Hl; [|split; reflexivity].
    destruct (SA_load_data_ok w st tt s Hl) as (f & Hf & _). rewrite Hf.
    right. repeat split; assumption || reflexivity.
  - destruct (App.load_data w st) as [[[]|e] s] eqn:Hl; [|split; reflexivity].
    destruct (App_load_data_ok w st tt s Hl) as (f & Hf & _). rewrite Hf.
    right. repeat split; assumption || reflexivity.
Qed.

(** [DataLoader.get_data] in both files: a success returns the cached frame
    without touching the loader, or, when nothing is cached, the frame that a
    successful [_load_data] stored; a failure happens only when nothing is
    cached and is exactly the error of [_load_data], never the
    ['NoneType' object is not subscriptable] [TypeError]. *)
Theorem get_data_outcome w (st : loader) :
  match SA.get_data w st with
  | (Ok f, st') => (data st = Some f /\ st' = st) \/
                   (data st = None /\ SA.load_data w st = (Ok tt, st') /\ data st' = Some f)
  | (Err e, st') => data st = None /\ SA.load_data w st = (Err e, st')
  end /\
  match App.get_data w st with
  | (Ok f, st') => (data st = Some f /\ st' = st) \/
                   (data st = None /\ App.load_data w st = (Ok tt, st') /\ data st' = Some f)
  | (Err e, st') => data st = None /\ App.load_data w st = (Err e, st')
  end.
Proof. exact (get_data_cases w st). Qed.

(** Once [get_data] has succeeded, a later [get_data] returns the same
    frame and leaves the loader as it is, whatever the file system holds by
    then: the file is never read again. *)
Theorem get_data_sticky (w1 w2 : world) (st : loader) (f : frame) :
  (fst (SA.get_data w1 st) = Ok f ->
   SA.get_data w2 (snd (SA.get_data w1 st)) = (Ok f, snd (SA.get_data w1 st))) /\
  (fst (App.get_data w1 st) = Ok f ->
   App.get_data w2 (snd (App.get_data w1 st)) = (Ok f, snd (App.get_data w1 st))).
Proof.
  destruct (get_data_cases w1 st) as [HS HA]. split.
  - destruct (SA.get_data w1 st) as [[g|e] s]; simpl; intro H; inversion H; subst.
    apply SA_get_data_cached. destruct HS as [[Hd ->]|(_ & _ & Hd)]; exact Hd.
  - destruct (App.get_data w1 st) as [[g|e] s]; simpl; intro H; inversion H; subst.
    apply App_get_data_cached. destruct HA as [[Hd ->]|(_ & _ & Hd)]; exact Hd.
Qed.

Lemma get_data_sticky_witness :
  fst (SA.get_data sample_world (mk_loader "sales_data.csv" None)) = Ok sample_loaded_frame /\
  SA.get_data missing_world (snd (SA.get_data sample_world (mk_loader "sales_data.csv" None))) =
    (Ok sample_loaded_frame, snd (SA.get_data sample_world (mk_loader "sales_data.csv" None))).
Proof.
  assert (H : fst (SA.get_data sample_world (mk_loader "sales_data.csv" None)) = Ok sample_loaded_frame)
    by (vm_compute; reflexivity).
  split; [exact H|].
  exact (proj1 (get_data_sticky sample_world missing_world (mk_loader "sales_data.csv" None)
                  sample_loaded_frame) H).
Defined.

Lemma assign_week_idem (f : frame) : assign_week (assign_week f) = assign_week f.
Proof.
  assert (Hw : has_column (assign_week f) "week" = true).
  { unfold has_column, assign_week. cbn [columns]. fold (has_column f "week").
    destruct (has_column f "week") eqn:E; [exact E|].
    rewrite existsb_app. cbn. rewrite orb_true_r. reflexivity. }
  unfold assign_week at 1. rewrite Hw. unfold assign_week. cbn [columns rows]. f_equal.
  rewrite map_map. apply map_ext. intro. reflexivity.
Qed.

Lemma assign_week_has_column (f : frame) (c : string) :
  has_column f c = true -> has_column (assign_week f) c = true.
Proof.
  intro H. unfold assign_week, has_column. cbn [columns]. fold (has_column f "week").
  destruct (has_column f "week"); [exact H|].
  rewrite existsb_app. fold (has_column f c). rewrite H. reflexivity.
Qed.

Lemma first_bad_date_assign (f : frame) : first_bad_date (rows (assign_week f)) = first_bad_date (rows f).
Proof.
  unfold assign_week. cbn [rows]. induction (rows f) as [|r t IH]; [reflexivity|].
  cbn [map first_bad_date date]. destruct (date r); auto.
Qed.

Ltac weekly_steps :=
  cbn -[has_column first_bad_date assign_week groupby_sum];
  repeat match goal with
         | |- context [has_column ?g ?c] =>
             let E := fresh "E" in destruct (has_column g c) eqn:E;
             cbn -[has_column first_bad_date assign_week groupby_sum]
         | |- context [first_bad_date ?l] =>
             let E := fresh "E" in destruct (first_bad_date l) eqn:E;
             cbn -[has_column first_bad_date assign_week groupby_sum]
         end;
  try (let H := fresh "H" in intro H; discriminate H).

Ltac weekly_repeat gd cached :=
  unfold wrap_value_error, bind, set_data, ret, raise; cbn beta iota zeta;
  let df := fresh "df" in let e := fresh "e" in let s := fresh "s" in
  match goal with |- context [gd ?w ?st] =>
    destruct (gd w st) as [[df|e] s]; [|let H := fresh "H" in intro H; discriminate H] end;
  weekly_steps;
  let H := fresh "H" in intro H; inversion H; subst; clear H;
  try (match goal with |- context [gd ?w2 _] =>
    rewrite (cached w2 (mk_loader (file_path s) (Some (assign_week df))) (assign_week df) eq_refl) end);
  cbn -[has_column first_bad_date assign_week groupby_sum];
  let Hd := fresh "Hd" in
  assert (Hd : has_column (assign_week df) "date" = true)
    by (apply assign_week_has_column; assumption);
  rewrite Hd, first_bad_date_assign, assign_week_idem;
  repeat match goal with H : ?x = _ |- context [?x] => rewrite H end;
  reflexivity.

(** [get_weekly_sales] in both files: when a call succeeds, a second call
    on the loader it leaves returns the same weekly totals and leaves the
    loader unchanged, even though the first call wrote the [week] column into
    the cached frame and the file system may have changed. *)
Theorem weekly_sales_repeat (w1 w2 : world) (st st1 : loader) (l : list (Z * Q)) :
  (SA.get_weekly_sales w1 st = (Ok l, st1) -> SA.get_weekly_sales w2 st1 = (Ok l, st1)) /\
  (App.get_weekly_sales w1 st = (Ok l, st1) -> App.get_weekly_sales w2 st1 = (Ok l, st1)).
Proof.
  split.
  - unfold SA.get_weekly_sales. weekly_repeat SA.get_data SA_get_data_cached.
  - unfold App.get_weekly_sales. weekly_repeat App.get_data App_get_data_cached.
Qed.

Lemma days_before_year_step (y : Z) :
  364 <= days_before_year (y + 1) - days_before_year y <= 367.
Proof.
  unfold days_before_year. replace (y + 1 - 1) with y by lia.
  Z.div_mod_to_equations. lia.
Qed.

Lemma isoweek1monday_spec (y : Z) :
  ymd2ord y 1 1 - 3 <= isoweek1monday y <= ymd2ord y 1 1 + 3 /\
  (isoweek1monday y + 6) mod 7 = 0.
Proof.
  unfold isoweek1monday. cbv zeta.
  set (x := ymd2ord y 1 1).
  assert (H := Z.mod_pos_bound (x + 6) 7 ltac:(lia)).
  destruct (Z.gtb_spec ((x + 6) mod 7) 3); split; try lia.
  - replace (x - (x + 6) mod 7 + 7 + 6) with ((x + 6) - (x + 6) mod 7 + 1 * 7) by lia.
    rewrite Z.mod_add by lia. rewrite Zminus_mod, Z.mod_mod, Z.sub_diag by lia. reflexivity.
  - replace (x - (x + 6) mod 7 + 6) with ((x + 6) - (x + 6) mod 7) by lia.
    rewrite Zminus_mod, Z.mod_mod, Z.sub_diag by lia. reflexivity.
Qed.

Lemma ymd2ord_jan1 (y : Z) : ymd2ord y 1 1 = days_before_year y + 1.
Proof. unfold ymd2ord, days_before_month. simpl. destruct (is_leap y); simpl; lia. Qed.

Lemma days_before_month_nonneg (y m : Z) : 1 <= m <= 12 -> 0 <= days_before_month y m.
Proof.
  intro Hm. unfold days_before_month.
  assert (H : 0 <= nth (Z.to_nat m) DAYS_BEFORE_MONTH 0).
  { assert (Hc : m = 1 \/ m = 2 \/ m = 3 \/ m = 4 \/ m = 5 \/ m = 6 \/ m = 7 \/ m = 8 \/
                 m = 9 \/ m = 10 \/ m = 11 \/ m = 12) by lia.
    repeat destruct Hc as [Hc | Hc]; subst m; simpl; lia. }
  destruct ((m >? 2) && is_leap y); lia.
Qed.

Lemma iso_week_bounds (y m d : Z) : 1 <= m <= 12 -> 1 <= d -> 1 <= iso_week y m d <= 53.
Proof.
  intros Hm Hd. unfold iso_week. cbv zeta.
  destruct (isoweek1monday_spec (y - 1)) as [Ha Ha7].
  destruct (isoweek1monday_spec y) as [Hb Hb7].
  destruct (isoweek1monday_spec (y + 1)) as [Hc Hc7].
  rewrite !ymd2ord_jan1 in Ha, Hb, Hc.
  pose proof (days_before_year_step (y - 1)) as S1. replace (y - 1 + 1) with y in S1 by lia.
  pose proof (days_before_year_step y) as S2.
  assert (Ht : days_before_year y + 1 <= ymd2ord y m d).
  { unfold ymd2ord. pose proof (days_before_month_nonneg y m Hm). lia. }
  set (t := ymd2ord y m d) in *.
  set (A := isoweek1monday (y - 1)) in *. set (B := isoweek1monday y) in *.
  set (C := isoweek1monday (y + 1)) in *.
  set (DA := days_before_year (y - 1)) in *. set (DB := days_before_year y) in *.
  set (DC := days_before_year (y + 1)) in *.
  clearbody t A B C DA DB DC.
  destruct (Z.ltb_spec ((t - B) / 7) 0);
    [|destruct (Z.geb_spec ((t - B) / 7) 52); destruct (Z.geb_spec t C); simpl];
    Z.div_mod_to_equations; lia.
Qed.

Lemma groupby_sum_keys (key : row -> option Z) (col : row -> option Q) (rs : list row) :
  map fst (groupby_sum key col rs) = group_keys key rs.
Proof. unfold groupby_sum. rewrite map_map. simpl. apply map_id. Qed.

(** The weekly totals of either file are keyed by week numbers in strictly
    ascending order (so each week appears once), and every week number lies
    between 1 and 53, provided the frame's parsed dates are calendar dates
    (month 1 to 12, day at least 1). *)
Theorem weekly_keys_iso (w : world) (st : loader) (f : frame)
  (l : list (Z * Q)) :
  data st = Some f ->
  (forall r y m d, In r (rows f) -> date r = DateOk y m d -> 1 <= m <= 12 /\ 1 <= d) ->
  (fst (SA.get_weekly_sales w st) = Ok l \/ fst (App.get_weekly_sales w st) = Ok l) ->
  StronglySorted Z.lt (map fst l) /\ Forall (fun k => 1 <= k <= 53) (map fst l).
Proof.
  intros Hd Hv Hl. rewrite (weekly_sales_ok w st f l Hd Hl), groupby_sum_keys.
  split; [apply group_keys_sorted|].
  apply Forall_forall. intros k Hk. apply group_keys_In in Hk.
  destruct Hk as [r [Hin Hr]]. unfold assign_week in Hin. simpl in Hin.
  apply in_map_iff in Hin. destruct Hin as [r0 [<- Hin0]]. simpl in Hr.
  unfold week_of in Hr. destruct (date r0) as [|y m d|s] eqn:Hdt; try discriminate.
  injection Hr as <-. destruct (Hv r0 y m d Hin0 Hdt). now apply iso_week_bounds.
Qed.

Lemma weekly_sales_repeat_witness :
  SA.get_weekly_sales sample_world loaded_sample = (Ok sample_weekly, sample_weekly_loader) /\
  SA.get_weekly_sales (world_with (Err (FileNotFoundError "gone"))) sample_weekly_loader
    = (Ok sample_weekly, sample_weekly_loader).
Proof.
  assert (H : SA.get_weekly_sales sample_world loaded_sample = (Ok sample_weekly, sample_weekly_loader))
    by (vm_compute; reflexivity).
  split; [exact H|].
  exact (proj1 (weekly_sales_repeat sample_world _ loaded_sample sample_weekly_loader sample_weekly) H).
Defined.

Lemma weekly_keys_iso_witness :
  data loaded_sample = Some sample_loaded_frame /\
  fst (SA.get_weekly_sales sample_world loaded_sample) = Ok sample_weekly /\
  StronglySorted Z.lt (map fst sample_weekly) /\ Forall (fun k => 1 <= k <= 53) (map fst sample_weekly).
Proof.
  assert (Hd : data loaded_sample = Some sample_loaded_frame) by (vm_compute; reflexivity).
  assert (Hl : fst (SA.get_weekly_sales sample_world loaded_sample) = Ok sample_weekly)
    by (vm_compute; reflexivity).
  assert (Hv : forall r y m d, In r (rows sample_loaded_frame) -> date r = DateOk y m d ->
                 1 <= m <= 12 /\ 1 <= d).
  { intros r y m d Hin Hdt. vm_compute in Hin.
    repeat destruct Hin as [Hin|Hin]; try contradiction; subst r;
      cbn in Hdt; injection Hdt as <- <- <-; lia. }
  split; [exact Hd|]. split; [exact Hl|].
  exact (weekly_keys_iso sample_world loaded_sample sample_loaded_frame sample_weekly Hd Hv (or_introl Hl)).
Defined.

(** On a loaded table with every CSV column and no rows, the weekly report
    of either file is empty (and the [week] column is added to the cached
    frame), and the product preference report is the sort of the empty
    totals, with the loader unchanged. *)
Theorem empty_table_reports (w : world) (sv : list (Z * Q) -> list (Z * Q)) (st : loader)
  (f : frame) :
  data st = Some f -> rows f = [] ->
  (forall c, In c csv_columns -> has_column f c = true) ->
  SA.get_weekly_sales w st = (Ok [], mk_loader (file_path st) (Some (assign_week f))) /\
  App.get_weekly_sales w st = (Ok [], mk_loader (file_path st) (Some (assign_week f))) /\
  SA.get_product_preference w sv st = (Ok (sv []), st) /\
  App.get_product_preference w sv st = (Ok (sv []), st).
Proof.
  intros Hd Hr Hc.
  assert (Hw : forall c, In c csv_columns -> has_column (assign_week f) c = true)
    by (intros c Hin; apply assign_week_has_column, Hc, Hin).
  assert (Hfb : first_bad_date (rows f) = None) by (rewrite Hr; reflexivity).
  assert (Hg : groupby_sum week sales_amount (rows (assign_week f)) = [])
    by (unfold assign_week; cbn [rows]; rewrite Hr; reflexivity).
  assert (Hp : groupby_sum product_id sales_amount (rows f) = []) by (rewrite Hr; reflexivity).
  repeat split;
    [unfold SA.get_weekly_sales | unfold App.get_weekly_sales
    | unfold SA.get_product_preference | unfold App.get_product_preference];
    run_cached Hd;
    rewrite ?(Hc "date"), ?Hfb, ?(Hw "sales_amount"), ?(Hc "product_id"), ?(Hc "sales_amount"),
      ?Hg, ?Hp by (cbn; tauto); cbn; try reflexivity;
    destruct st; cbn in Hd |- *; subst; reflexivity.
Qed.

Lemma empty_table_reports_witness :
  data header_only_loader = Some header_only_frame /\
  SA.get_weekly_sales sample_world header_only_loader
    = (Ok [], mk_loader "sales_data.csv" (Some (assign_week header_only_frame))) /\
  App.get_product_preference sample_world sort_desc_insertion header_only_loader
    = (Ok [], header_only_loader).
Proof.
  assert (Hd : data header_only_loader = Some header_only_frame) by (vm_compute; reflexivity).
  assert (Hc : forall c, In c csv_columns -> has_column header_only_frame c = true).
  { intros c Hin. cbn in Hin. repeat destruct Hin as [<-|Hin]; try contradiction; reflexivity. }
  destruct (empty_table_reports sample_world sort_desc_insertion header_only_loader
              header_only_frame Hd eq_refl Hc) as [H1 [_ [_ H4]]].
  split; [exact Hd|]. split; [exact H1 | exact H4].
Defined.

Lemma price_analysis_ok (w : world) (st : loader) (f : frame) (t : list (Z * list (string * stat))) :
  data st = Some f ->
  (fst (SA.get_product_price_analysis w st) = Ok t \/ fst (App.get_product_price_analysis w st) = Ok t) ->
  t = groupby_describe product_id price (rows f).
Proof.
  intros Hd [Hl|Hl]; revert Hl;
    [unfold SA.get_product_price_analysis | unfold App.get_product_price_analysis]; cached_ok Hd.
Qed.

Lemma groupby_describe_keys (key : row -> option Z) (col : row -> option Q) (rs : list row) :
  map fst (groupby_describe key col rs) = group_keys key rs.
Proof. unfold groupby_describe. rewrite map_map. simpl. apply map_id. Qed.

(** The product price analysis of either file lists one group per product
    id, in strictly ascending order; the product ids listed are exactly those
    present in some row of the cached frame. *)
Theorem price_analysis_groups (w : world) (st : loader) (f : frame)
  (t : list (Z * list (string * stat))) :
  data st = Some f ->
  (fst (SA.get_product_price_analysis w st) = Ok t \/ fst (App.get_product_price_analysis w st) = Ok t) ->
  StronglySorted Z.lt (map fst t) /\
  (forall k, In k (map fst t) <-> exists r, In r (rows f) /\ product_id r = Some k).
Proof.
  intros Hd Hl. rewrite (price_analysis_ok w st f t Hd Hl), groupby_describe_keys.
  split; [apply group_keys_sorted | intro k; apply group_keys_In].
Qed.

Lemma price_analysis_groups_witness :
  data loaded_sample = Some sample_loaded_frame /\
  fst (SA.get_product_price_analysis sample_world loaded_sample) = Ok sample_price /\
  StronglySorted Z.lt (map fst sample_price).
Proof.
  assert (Hd : data loaded_sample = Some sample_loaded_frame) by (vm_compute; reflexivity).
  assert (Hl : fst (SA.get_product_price_analysis sample_world loaded_sample) = Ok sample_price)
    by (vm_compute; reflexivity).
  split; [exact Hd|]. split; [exact Hl|].
  exact (proj1 (price_analysis_groups sample_world loaded_sample sample_loaded_frame sample_price
                  Hd (or_introl Hl))).
Defined.

Lemma fmap_M_snd {A B} (g : A -> B) (m : M A) (st : loader) :
  snd (fmap_M g m st) = snd (m st).
Proof. rewrite fmap_M_run. destruct (m st) as [[v|e] s]; reflexivity. Qed.

Lemma analyze_session w sv a p f st :
  session_state p f st -> session_state p f (snd (SAMain.analyze w sv a st)).
Proof.
  intro Hs.
  assert (Hg : exists g, data st = Some g /\ file_path st = p /\ (g = f \/ g = assign_week f)).
  { destruct Hs as [-> | ->]; [exists f | exists (assign_week f)]; repeat split; auto. }
  destruct Hg as (g & Hd & Hp & Hgf).
  assert (Hw : session_state p f (after_weekly st g)).
  { unfold after_weekly. destruct (_ && _); [|exact Hs]. right. rewrite Hp.
    destruct Hgf as [-> | ->]; [|rewrite assign_week_idem]; reflexivity. }
  destruct (reports_state w st g (match a with SA.MonthlySalesAnalysis b => b | _ => "" end) sv Hd)
    as (H1 & _ & H3 & _ & H5 & _ & H7 & _ & H9 & _).
  destruct a as [b| | | |]; simpl; rewrite fmap_M_snd;
    first [rewrite H1 | rewrite H3 | rewrite H5 | rewrite H7 | rewrite H9]; assumption.
Qed.

Lemma run_analysis_session w windows sv created ins p f st :
  session_state p f st -> session_state p f (snd (SAMain.run_analysis w windows sv created ins st)).
Proof.
  intro Hs. unfold SAMain.run_analysis. destruct created as [a|e]; [|exact Hs].
  pose proof (analyze_session w sv a p f st Hs) as Ha.
  destruct (SAMain.analyze w sv a st) as [r st']. simpl in Ha.
  destruct ins; exact Ha.
Qed.

Lemma prepend_snd evs t : snd (prepend evs t) = snd t.
Proof. destruct t as [[ev n] s]. reflexivity. Qed.

Lemma iteration_session w windows sv ins p f st :
  session_state p f st -> session_state p f (snd (SAMain.iteration w windows sv ins st)).
Proof.
  intro Hs. unfold SAMain.iteration.
  destruct ins as [|c ins1]; [exact Hs|].
  repeat match goal with
         | |- context [if String.eqb c ?b then _ else _] => destruct (String.eqb c b)
         end;
    rewrite ?prepend_snd;
    try (apply run_analysis_session; exact Hs);
    destruct ins1; rewrite ?prepend_snd; try exact Hs; apply run_analysis_session; exact Hs.
Qed.

Lemma main_loop_session w windows sv n ins p f st :
  session_state p f st -> session_state p f (snd (SAMain.main_loop w windows sv n ins st)).
Proof.
  revert ins st. induction n as [|n IH]; intros ins st Hs; [exact Hs|].
  rewrite main_loop_S.
  pose proof (iteration_session w windows sv ins p f st Hs) as Hi.
  destruct (SAMain.iteration w windows sv ins st) as [[ev [ins'|e]] st']; simpl in Hi; [|exact Hi].
  specialize (IH ins' st' Hi).
  destruct (SAMain.main_loop w windows sv n ins' st') as [[ev' e] st'']. exact IH.
Qed.

(** A command-line session of [sales_analysis.py] that loaded the table [f]
    ends, whatever is typed, with the loader still on [sales_data.csv] and
    holding [f] or [f] with the [week] column added: the file is never read
    again, and the only change the reports make to the cached table is
    [get_weekly_sales]'s [week] column, which a second weekly report leaves
    as it is. *)
Theorem cli_session_cache w windows sv (ins : list string) (st : loader) (f : frame) :
  SA.DataLoader_init w "sales_data.csv" st = (Ok tt, mk_loader "sales_data.csv" (Some f)) ->
  snd (SAMain.main w windows sv ins st) = mk_loader "sales_data.csv" (Some f) \/
  snd (SAMain.main w windows sv ins st) = mk_loader "sales_data.csv" (Some (assign_week f)).
Proof.
  intro Hi. unfold SAMain.main. rewrite Hi.
  apply main_loop_session. left. reflexivity.
Qed.

Lemma cli_session_cache_witness :
  SA.DataLoader_init sample_world "sales_data.csv" (mk_loader "" None) =
    (Ok tt, mk_loader "sales_data.csv" (Some sample_loaded_frame)) /\
  snd (SAMain.main sample_world false sort_desc_insertion ["3"; ""; "1"; "1"; ""; "0"]
         (mk_loader "" None)) =
    mk_loader "sales_data.csv" (Some (assign_week sample_loaded_frame)).
Proof.
  assert (H : SA.DataLoader_init sample_world "sales_data.csv" (mk_loader "" None) =
    (Ok tt, mk_loader "sales_data.csv" (Some sample_loaded_frame))) by (vm_compute; reflexivity).
  split; [exact H|].
  destruct (cli_session_cache sample_world false sort_desc_insertion ["3"; ""; "1"; "1"; ""; "0"]
              (mk_loader "" None) sample_loaded_frame H) as [E|E];
    [exfalso; revert E; vm_compute; discriminate | exact E].
Defined.
